(** * Terminal slideshow presenter: layout engine and navigator

    A shallow embedding of [slideshow.py].  Python strings are sequences of
    Unicode code points, Python integers are unbounded: a string is a list of
    code points ([Z]) and every integer of the program is a [Z].  The methods
    of the class [Slideshow] become functions on a record holding the
    attributes of [self]; the methods that assign to an attribute return the
    new record. *)

From Stdlib Require Import ZArith List Lia Bool String Ascii DecimalString.
From stdpp Require Import base list.
From Equations.Prop Require Import Equations Logic.
Import ListNotations.

#[local] Open Scope Z_scope.

(** ** Python strings and the built-ins the program calls *)

Definition codepoint := Z.
Definition str := list codepoint.

(** A literal of the source written in ASCII, as a Python string. *)
Fixpoint lit (s : string) : str :=
  match s with
  | EmptyString => []
  | String a s' => Z.of_N (N_of_ascii a) :: lit s'
  end.

Module Py.

(** [len(x)] *)
Definition len {A} (l : list A) : Z := Z.of_nat (length l).

(** [c * n] for a one-character string [c]: empty when [n <= 0]. *)
Definition repeat_char (c : codepoint) (n : Z) : str := replicate (Z.to_nat n) c.

(** [range(n)] as the number of iterations of [for _ in range(n)]. *)
Definition range_len (n : Z) : nat := Z.to_nat n.

(** [str.isspace] on one character: the code points Python treats as
    whitespace in [str.split()] and [str.strip()]. *)
Definition isspace (c : codepoint) : bool :=
  ((9 <=? c) && (c <=? 13)) || ((28 <=? c) && (c <=? 32))
  || (c =? 133) || (c =? 160) || (c =? 5760)
  || ((8192 <=? c) && (c <=? 8202))
  || (c =? 8232) || (c =? 8233) || (c =? 8239) || (c =? 8287) || (c =? 12288).

Fixpoint lstrip (s : str) : str :=
  match s with
  | c :: s' => if isspace c then lstrip s' else s
  | [] => []
  end.

Definition rstrip (s : str) : str := rev (lstrip (rev s)).

(** [s.strip()] *)
Definition strip (s : str) : str := rstrip (lstrip s).

(** [s.startswith(p)] *)
Fixpoint startswith (p s : str) : bool :=
  match p, s with
  | [], _ => true
  | a :: p', b :: s' => (a =? b) && startswith p' s'
  | _ :: _, [] => false
  end.

(** [s.split(sep)] for a one-character separator: the pieces between the
    occurrences of [sep]; always at least one piece. *)
Fixpoint split_char (sep : codepoint) (s : str) : list str :=
  match s with
  | [] => [[]]
  | c :: s' =>
      if c =? sep then [] :: split_char sep s'
      else match split_char sep s' with
           | piece :: pieces => (c :: piece) :: pieces
           | [] => [[c]]
           end
  end.

(** [sep.join(pieces)] *)
Fixpoint join (sep : str) (pieces : list str) : str :=
  match pieces with
  | [] => []
  | [p] => p
  | p :: rest => p ++ sep ++ join sep rest
  end.

(** [s.find(sep)] as the text before and after the first occurrence. *)
Fixpoint partition (sep s : str) : option (str * str) :=
  if startswith sep s then Some ([], drop (length sep) s)
  else match s with
       | [] => None
       | c :: s' =>
           match partition sep s' with
           | Some (before, after) => Some (c :: before, after)
           | None => None
           end
       end.

(** [s.split()] with no separator: the maximal runs of characters that
    are not whitespace.  [word] is the run being read, reversed. *)
Fixpoint split_ws_from (word : str) (s : str) : list str :=
  match s with
  | [] => match word with [] => [] | _ => [rev word] end
  | c :: s' =>
      if isspace c
      then match word with
           | [] => split_ws_from [] s'
           | _ => rev word :: split_ws_from [] s'
           end
      else split_ws_from (c :: word) s'
  end.

Definition split_ws (s : str) : list str := split_ws_from [] s.

(** [l[i]]: a negative index counts from the end; [None] is IndexError. *)
Definition getitem {A} (l : list A) (i : Z) : option A :=
  let i' := if i <? 0 then i + len l else i in
  if (0 <=? i') && (i' <? len l) then l !! Z.to_nat i' else None.

(** Index normalisation of a slice bound. *)
Definition slice_bound (n : Z) (i : Z) : Z :=
  if i <? 0 then Z.max 0 (i + n) else Z.min i n.

(** [l[start:stop]] *)
Definition slice {A} (l : list A) (start stop : Z) : list A :=
  let lo := slice_bound (len l) start in
  let hi := slice_bound (len l) stop in
  take (Z.to_nat (hi - lo)) (drop (Z.to_nat lo) l).

(** [partition] cuts [s] around an occurrence of [sep]. *)
Lemma startswith_app (p s : str) :
  startswith p s = true -> s = p ++ drop (length p) s.
Proof.
  revert s; induction p as [|a p IH]; intros [|b s]; simpl; try done.
  intros [Hab Hps]%andb_prop. apply Z.eqb_eq in Hab as ->.
  f_equal. by apply IH.
Qed.

Lemma partition_app (sep s before after : str) :
  partition sep s = Some (before, after) -> s = before ++ sep ++ after.
Proof.
  revert before after; induction s as [|c s IH]; intros before after; simpl.
  - destruct (startswith sep []) eqn:E; [|done].
    intros [= <- <-]. by apply startswith_app in E.
  - destruct (startswith sep (c :: s)) eqn:E.
    + intros [= <- <-]. by apply startswith_app in E.
    + destruct (partition sep s) as [[b a]|]; [|done].
      intros [= <- <-]. simpl. f_equal. by apply IH.
Qed.

(** [s.split(sep)] for a separator string [sep = c :: sep']: cut at the
    first occurrence, then split what follows it. *)
Equations? split_nonempty (c : codepoint) (sep' : str) (s : str) : list str
  by wf (length s) lt :=
  split_nonempty c sep' s with inspect (partition (c :: sep') s) := {
    | exist _ (Some (before, after)) _ => before :: split_nonempty c sep' after
    | exist _ None _ => [s] }.
Proof.
  apply partition_app in e. rewrite e, !length_app. simpl. lia.
Qed.

(** [s.split(sep)]; [None] is ValueError (empty separator). *)
Definition split (sep s : str) : option (list str) :=
  match sep with
  | [] => None
  | c :: sep' => Some (split_nonempty c sep' s)
  end.

(** [s.replace(old, new)]: every occurrence of [old], left to right and
    without overlap, becomes [new]. *)
Definition replace (old new s : str) : option str :=
  join new <$> split old s.

(** [os.path.basename(p)] on a POSIX path: what follows the last slash. *)
Definition basename (p : str) : str := List.last (split_char 47 p) [].

(** [str(n)] and [{n}] in an f-string, for an integer. *)
Definition str_of_int (n : Z) : str :=
  lit (DecimalString.NilZero.string_of_int (Z.to_int n)).

(** Truth value of a sequence: non-empty. *)
Definition truthy {A} (l : list A) : bool :=
  match l with [] => false | _ => true end.

End Py.

(** ** Characters the program writes *)

Definition NEWLINE : codepoint := 10.
Definition SPACE : codepoint := 32.
Definition ELLIPSIS : codepoint := 8230.      (* U+2026 *)
Definition BOX_H : codepoint := 9472.         (* U+2500 *)
Definition BOX_V : codepoint := 9474.         (* U+2502 *)
Definition BOX_TL : codepoint := 9484.        (* U+250C *)
Definition BOX_TR : codepoint := 9488.        (* U+2510 *)
Definition BOX_BL : codepoint := 9492.        (* U+2514 *)
Definition BOX_BR : codepoint := 9496.        (* U+2518 *)
Definition BOX_LT : codepoint := 9500.        (* U+251C *)
Definition BOX_RT : codepoint := 9508.        (* U+2524 *)
Definition UPDOWN : codepoint := 8597.        (* U+2195 *)

(** ** Unicode data

    [unicodedata.east_asian_width] belongs to the Python runtime, and its
    table changes with the Unicode version: the program is read with the
    classification as a parameter. *)

Inductive EastAsianWidth : Set := EA_F | EA_H | EA_W | EA_Na | EA_A | EA_N.

(** [ea_width in ('F', 'W')] *)
Definition in_F_W (ea_width : EastAsianWidth) : bool :=
  match ea_width with
  | EA_F | EA_W => true
  | _ => false
  end.

(** ** The slide dictionary and the attributes of [Slideshow] *)

Record Slide : Type := mkSlide {
  filepath : str;
  filename : str;
  title : str;
  content : str;
  notes : str
}.

Record Slideshow : Type := mkSlideshow {
  slides : list Slide;
  current_index : Z;
  scroll_offset : Z;
  show_notes : bool;
  notes_height : Z
}.

Definition set_current_index (self : Slideshow) (v : Z) : Slideshow :=
  mkSlideshow (slides self) v (scroll_offset self) (show_notes self) (notes_height self).

Definition set_scroll_offset (self : Slideshow) (v : Z) : Slideshow :=
  mkSlideshow (slides self) (current_index self) v (show_notes self) (notes_height self).

Definition set_show_notes (self : Slideshow) (v : bool) : Slideshow :=
  mkSlideshow (slides self) (current_index self) (scroll_offset self) v (notes_height self).

Definition set_notes_height (self : Slideshow) (v : Z) : Slideshow :=
  mkSlideshow (slides self) (current_index self) (scroll_offset self) (show_notes self) v.

(** What one call of [_render_slide] prints, top to bottom: the content
    region, the notes panel when it is shown, the status bar; and the values
    the pass computed on the way.  Style escape sequences, which take no
    row of the screen, are left out. *)
Record Frame : Type := mkFrame {
  total_content_height : Z;
  available_height : Z;
  needs_scroll : bool;
  top_padding : Z;
  screen_lines : list str;
  notes_panel : option (list str);
  status_line : str
}.

Section Program.

Variable east_asian_width : codepoint -> EastAsianWidth.

(** ** Text metrics *)

Definition get_display_width (text : str) : Z :=
  fold_left
    (fun width char =>
       if in_F_W (east_asian_width char) then width + 2 else width + 1)
    text 0.

(** The [for] loop of [truncate_to_width]: the text still to read, with
    [current_width] and [result]; returns [result] and [truncated]. *)
Fixpoint truncate_loop (effective_max : Z) (text : str)
    (current_width : Z) (result : str) : str * bool :=
  match text with
  | [] => (result, false)
  | char :: rest =>
      let char_width := if in_F_W (east_asian_width char) then 2 else 1 in
      if current_width + char_width >? effective_max
      then (result, true)
      else truncate_loop effective_max rest
             (current_width + char_width) (result ++ [char])
  end.

Definition truncate_to_width (text : str) (max_width : Z) (add_indicator : bool) : str :=
  let effective_max := if add_indicator then max_width - 1 else max_width in
  let '(result, truncated) := truncate_loop effective_max text 0 [] in
  if truncated && add_indicator then result ++ [ELLIPSIS] else result.

(** ** Loading the deck *)

(** The body of the loop of [_load_slides] for one file, already read. *)
Definition load_slide (path text : str) : option Slide :=
  parts ← Py.split (lit "## Speaker Notes") text;
  part0 ← Py.getitem parts 0;
  let slide_content := Py.strip part0 in
  speaker_notes ←
    (if Py.len parts >? 1 then Py.strip <$> Py.getitem parts 1 else Some []);
  let lines := Py.split_char NEWLINE slide_content in
  title ←
    (if Py.truthy lines
     then Py.getitem lines 0 ≫= Py.replace (lit "# ") []
     else Some (lit "Untitled"));
  Some (mkSlide path (Py.basename path) title slide_content speaker_notes).

(** [files]: the sorted [*.md] paths of the directory with their text. *)
Definition _load_slides (files : list (str * str)) : option (list Slide) :=
  mapM (fun '(path, text) => load_slide path text) files.

(** [Slideshow.__init__] once the files are read. *)
Definition init (files : list (str * str)) : option Slideshow :=
  deck ← _load_slides files;
  Some (mkSlideshow deck 0 0 false 6).

(** ** Layout engine *)

Definition _fit_line_to_width (line : str) (width : Z) : str :=
  let display_width := get_display_width line in
  if display_width >? width then truncate_to_width line width false
  else if display_width <? width
       then line ++ Py.repeat_char SPACE (width - display_width)
       else line.

Definition _prepare_slide_content (text : str) (width : Z) : list str :=
  let lines := Py.split_char NEWLINE text in
  let max_content_width :=
    fold_left
      (fun max_content_width line =>
         let dw := get_display_width line in
         if dw >? max_content_width then dw else max_content_width)
      lines 0 in
  let left_padding :=
    if max_content_width >=? width then 0
    else (width - max_content_width) / 2 in
  map
    (fun line =>
       let line_width := get_display_width line in
       let line :=
         if left_padding + line_width >? width
         then truncate_to_width line (width - left_padding) true
         else line in
       let padded_line := Py.repeat_char SPACE left_padding ++ line in
       let padded_width := get_display_width padded_line in
       if padded_width <? width
       then padded_line ++ Py.repeat_char SPACE (width - padded_width)
       else padded_line)
    lines.

(** The loop of [_extract_ascii_art], with [in_code_block] and [art_lines]. *)
Fixpoint extract_loop (lines : list str) (in_code_block : bool)
    (art_lines : list str) : list str :=
  match lines with
  | [] => art_lines
  | line :: rest =>
      if Py.startswith (lit "```") (Py.strip line)
      then extract_loop rest (negb in_code_block) art_lines
      else if in_code_block
           then extract_loop rest in_code_block (art_lines ++ [line])
           else extract_loop rest in_code_block art_lines
  end.

Definition _extract_ascii_art (content : str) : str :=
  let lines := Py.split_char NEWLINE content in
  let art_lines := extract_loop lines false [] in
  if Py.truthy art_lines then Py.join [NEWLINE] art_lines else content.

(** ** Text wrapper *)

(** The loop of [_wrap_text], with [lines], [current_line] and
    [current_length]; returns [lines] and [current_line]. *)
Fixpoint wrap_loop (width : Z) (words : list str) (lines : list str)
    (current_line : list str) (current_length : Z) : list str * list str :=
  match words with
  | [] => (lines, current_line)
  | word :: rest =>
      let word_len := Py.len word in
      if current_length + word_len + (if Py.truthy current_line then 1 else 0)
         <=? width
      then
        let current_line := current_line ++ [word] in
        wrap_loop width rest lines current_line
          (current_length + word_len
           + (if Py.len current_line >? 1 then 1 else 0))
      else
        let lines :=
          if Py.truthy current_line
          then lines ++ [Py.join [SPACE] current_line]
          else lines in
        wrap_loop width rest lines [word] word_len
  end.

Definition _wrap_text (text : str) (width : Z) : list str :=
  let words := Py.split_ws text in
  let '(lines, current_line) := wrap_loop width words [] [] 0 in
  let lines :=
    if Py.truthy current_line
    then lines ++ [Py.join [SPACE] current_line]
    else lines in
  if Py.truthy lines then lines else [[]].

(** ** Frame composer *)

(** The local [notes_text] of [_render_notes_panel]. *)
Definition notes_text_of (slide : Slide) : str :=
  if Py.truthy (notes slide) then Py.strip (notes slide)
  else lit "(No speaker notes)".

(** The local [wrapped_lines] of [_render_notes_panel]: each paragraph of
    the notes wrapped to the interior width, a blank paragraph kept as one
    empty line. *)
Definition notes_wrapped_lines (notes_text : str) (inner_width : Z) : list str :=
  flat_map
    (fun paragraph =>
       if Py.truthy (Py.strip paragraph)
       then _wrap_text (Py.strip paragraph) inner_width
       else [[]])
    (Py.split_char NEWLINE notes_text).

(** An interior row showing one wrapped line, and a blank interior row:
    the two branches of the loop over [range(available_content_lines)]. *)
Definition notes_text_row (width : Z) (line_content : str) : str :=
  let inner_width := width - 4 in
  let padding := inner_width - Py.len line_content in
  [BOX_V; SPACE] ++ line_content ++ Py.repeat_char SPACE padding
    ++ [SPACE; BOX_V].

Definition notes_blank_row (width : Z) : str :=
  [BOX_V] ++ Py.repeat_char SPACE (width - 2) ++ [BOX_V].

(** Row [i] of the interior: [if i < len(wrapped_lines)]. *)
Definition notes_content_line (width : Z) (wrapped_lines : list str) (i : nat) : str :=
  match wrapped_lines !! i with
  | Some line_content => notes_text_row width line_content
  | None => notes_blank_row width
  end.

(** The rows [_render_notes_panel] prints: top border, title, separator,
    the interior rows, bottom border. *)
Definition _render_notes_panel (self : Slideshow) (width panel_height : Z)
    : option (list str) :=
  slide ← Py.getitem (slides self) (current_index self);
  let notes_text := notes_text_of slide in
  let top_border := [BOX_TL] ++ Py.repeat_char BOX_H (width - 2) ++ [BOX_TR] in
  let bottom_border := [BOX_BL] ++ Py.repeat_char BOX_H (width - 2) ++ [BOX_BR] in
  let title_line :=
    [BOX_V] ++ lit " SPEAKER NOTES" ++ Py.repeat_char SPACE (width - 17) ++ [BOX_V] in
  let separator := [BOX_LT] ++ Py.repeat_char BOX_H (width - 2) ++ [BOX_RT] in
  let inner_width := width - 4 in
  let wrapped_lines := notes_wrapped_lines notes_text inner_width in
  let available_content_lines := panel_height - 4 in
  let content_lines :=
    map (notes_content_line width wrapped_lines)
      (seq 0 (Py.range_len available_content_lines)) in
  Some ([top_border; title_line; separator] ++ content_lines ++ [bottom_border]).

(** The line [_render_status_bar] prints. *)
Definition _render_status_bar (self : Slideshow) (width : Z)
    (needs_scroll : bool) (total_lines visible_lines : Z) : option str :=
  slide ← Py.getitem (slides self) (current_index self);
  let position :=
    lit "[" ++ Py.str_of_int (current_index self + 1) ++ lit "/"
      ++ Py.str_of_int (Py.len (slides self)) ++ lit "]" in
  let scroll_indicator :=
    if needs_scroll
    then
      let scroll_pos := scroll_offset self + 1 in
      let scroll_max := total_lines - visible_lines + 1 in
      [SPACE; UPDOWN] ++ Py.str_of_int scroll_pos ++ lit "/"
        ++ Py.str_of_int scroll_max
    else [] in
  let notes_indicator := if show_notes self then lit " [notes ON]" else [] in
  let help_hint :=
    if needs_scroll then lit "[j/k]scroll [s]notes [n]ext [p]rev [q]uit"
    else lit "[s]notes [n]ext [p]rev [h]elp [q]uit" in
  let status :=
    lit " " ++ position ++ scroll_indicator ++ notes_indicator ++ lit "  "
      ++ title slide in
  let min_spacing := 2 in
  let available_for_padding :=
    width - Py.len status - Py.len help_hint - min_spacing in
  let '(status, available_for_padding) :=
    if available_for_padding <? 1
    then
      let max_title_len :=
        width - Py.len position - Py.len scroll_indicator
          - Py.len help_hint - 8 in
      if max_title_len >? 3
      then
        let truncated_title :=
          Py.slice (title slide) 0 (max_title_len - 1) ++ [ELLIPSIS] in
        let status :=
          lit " " ++ position ++ scroll_indicator ++ lit "  "
            ++ truncated_title in
        (status, width - Py.len status - Py.len help_hint - min_spacing)
      else (status, available_for_padding)
    else (status, available_for_padding) in
  let padding := Z.max 1 available_for_padding in
  let status_line := status ++ Py.repeat_char SPACE padding ++ help_hint in
  Some (if Py.len status_line <? width
        then status_line ++ Py.repeat_char SPACE (width - Py.len status_line)
        else Py.slice status_line 0 width).

(** One render pass on a terminal of [width] columns and [height] rows
    (what [_get_terminal_size] returned): the new [self] and the frame. *)
Definition _render_slide (self : Slideshow) (width height : Z)
    : option (Slideshow * Frame) :=
  slide ← Py.getitem (slides self) (current_index self);
  let content := _extract_ascii_art (content slide) in
  let content_lines := _prepare_slide_content content width in
  let total_content_height := Py.len content_lines in
  let notes_panel_height :=
    if show_notes self then notes_height self + 4 else 0 in
  let available_height := height - 1 - notes_panel_height in
  let needs_scroll := total_content_height >? available_height in
  let self :=
    if needs_scroll
    then
      let max_scroll := total_content_height - available_height in
      set_scroll_offset self (Z.max 0 (Z.min (scroll_offset self) max_scroll))
    else set_scroll_offset self 0 in
  let '(visible_lines, top_padding) :=
    if needs_scroll
    then
      let start_line := scroll_offset self in
      let end_line := start_line + available_height in
      (Py.slice content_lines start_line end_line, 0)
    else
      (content_lines,
       Z.max 0 ((available_height - total_content_height) / 2)) in
  let screen_lines :=
    replicate (Py.range_len top_padding) (Py.repeat_char SPACE width)
      ++ visible_lines in
  let bottom_padding := available_height - Py.len screen_lines in
  let screen_lines :=
    screen_lines
      ++ replicate (Py.range_len bottom_padding) (Py.repeat_char SPACE width) in
  panel ←
    (if show_notes self
     then Some <$> _render_notes_panel self width notes_panel_height
     else Some None);
  status ←
    _render_status_bar self width needs_scroll total_content_height
      available_height;
  Some (self,
        mkFrame total_content_height available_height needs_scroll
          top_padding screen_lines panel status).

(** ** Navigator *)

Definition next_slide (self : Slideshow) : Slideshow * bool :=
  if current_index self <? Py.len (slides self) - 1
  then (set_scroll_offset (set_current_index self (current_index self + 1)) 0, true)
  else (self, false).

Definition prev_slide (self : Slideshow) : Slideshow * bool :=
  if current_index self >? 0
  then (set_scroll_offset (set_current_index self (current_index self - 1)) 0, true)
  else (self, false).

Definition goto_slide (self : Slideshow) (index : Z) : Slideshow * bool :=
  if (1 <=? index) && (index <=? Py.len (slides self))
  then (set_scroll_offset (set_current_index self (index - 1)) 0, true)
  else (self, false).

Definition scroll_down (self : Slideshow) (lines : Z) : Slideshow :=
  set_scroll_offset self (scroll_offset self + lines).

Definition scroll_up (self : Slideshow) (lines : Z) : Slideshow :=
  set_scroll_offset self (Z.max 0 (scroll_offset self - lines)).

End Program.

(** ** Sample data for concrete runs *)

(** An excerpt of the East Asian Width table: printable ASCII is narrow;
    Hangul Jamo, kana, the CJK unified ideographs and the Hangul syllables
    are wide; the fullwidth forms are fullwidth; the ellipsis, the arrows
    and the box-drawing characters are ambiguous. *)
Definition east_asian_width_excerpt (c : codepoint) : EastAsianWidth :=
  if (32 <=? c) && (c <=? 126) then EA_Na
  else if ((4352 <=? c) && (c <=? 4447))          (* U+1100..U+115F *)
          || ((12353 <=? c) && (c <=? 12438))     (* U+3041..U+3096 *)
          || ((12449 <=? c) && (c <=? 12543))     (* U+30A1..U+30FF *)
          || ((19968 <=? c) && (c <=? 40959))     (* U+4E00..U+9FFF *)
          || ((44032 <=? c) && (c <=? 55203))     (* U+AC00..U+D7A3 *)
       then EA_W
  else if ((65281 <=? c) && (c <=? 65376))        (* U+FF01..U+FF60 *)
          || ((65504 <=? c) && (c <=? 65510))     (* U+FFE0..U+FFE6 *)
       then EA_F
  else if (c =? 8230) || ((8592 <=? c) && (c <=? 8601))
          || ((9472 <=? c) && (c <=? 9547))       (* U+2500..U+254B *)
       then EA_A
  else EA_N.

Definition slide_of (body : str) : Slide :=
  mkSlide (lit "slides/01.md") (lit "01.md") (lit "Demo") body [].

(** ** The session: keyboard, terminal and screens

    The main loop reads characters from the keyboard, asks the terminal
    for its size at every screen it draws, and prints.  The characters still
    to be read, the number of size queries made and the screens printed
    so far make up the world the session runs in.  What Python's
    [str.isdigit] and [int] do on a character or a string depends on the
    Unicode tables of the runtime; both are parameters, like the answers of
    the terminal. *)

Inductive Exception : Set := IndexError | ValueError.

Inductive Screen : Type :=
  | SlideScreen (frame : Frame)      (* printed by [_render_slide] *)
  | IndexScreen (rows : list str)    (* printed by [_render_index] *)
  | HelpScreen                       (* the fixed text of [_render_help] *)
  | PromptText (text : str)          (* printed by [_get_number_input] *)
  | Notice (text : str).             (* a message of [run] *)

Record World : Type := mkWorld {
  stdin : list codepoint;
  clock : nat;
  screens : list Screen
}.

Definition show (w : World) (screen : Screen) : World :=
  mkWorld (stdin w) (clock w) (screens w ++ [screen]).

(** [sys.stdin.read(1)]: the next character, or the empty string at the
    end of the input. *)
Definition read1 (w : World) : str * World :=
  match stdin w with
  | [] => ([], w)
  | ch :: rest => ([ch], mkWorld rest (clock w) (screens w))
  end.

Module PyStr.

(** [a == b] on strings. *)
Fixpoint eq (a b : str) : bool :=
  match a, b with
  | [], [] => true
  | x :: a', y :: b' => (x =? y) && eq a' b'
  | _, _ => false
  end.

(** [key in (k1, k2, ...)] *)
Definition in_tuple (key : str) (keys : list str) : bool :=
  existsb (eq key) keys.

(** [f"{n:2d}"]: right-aligned in two columns. *)
Definition format_2d (n : Z) : str :=
  let digits := Py.str_of_int n in
  Py.repeat_char SPACE (2 - Py.len digits) ++ digits.

End PyStr.

Definition ESCAPE : codepoint := 27.
Definition DOUBLE_H : codepoint := 9552.      (* U+2550 *)
Definition POINTER : codepoint := 9654.       (* U+25B6 *)
Definition ARROW_UP : codepoint := 8593.      (* U+2191 *)
Definition ARROW_DOWN : codepoint := 8595.    (* U+2193 *)

(** The key names [_get_keypress] returns for the escape sequences. *)
Definition KEY_UP : str := lit "UP".
Definition KEY_DOWN : str := lit "DOWN".
Definition KEY_RIGHT : str := lit "RIGHT".
Definition KEY_LEFT : str := lit "LEFT".
Definition KEY_ESC : str := lit "ESC".

Definition _get_keypress (w : World) : str * World :=
  let '(ch, w) := read1 w in
  if PyStr.eq ch [ESCAPE]
  then
    let '(ch2, w) := read1 w in
    if PyStr.eq ch2 (lit "[")
    then
      let '(ch3, w) := read1 w in
      if PyStr.eq ch3 (lit "A") then (KEY_UP, w)
      else if PyStr.eq ch3 (lit "B") then (KEY_DOWN, w)
      else if PyStr.eq ch3 (lit "C") then (KEY_RIGHT, w)
      else if PyStr.eq ch3 (lit "D") then (KEY_LEFT, w)
      else (KEY_ESC, w)
    else (KEY_ESC, w)
  else (ch, w).

(** The rows [_render_index] prints on a terminal of [width] columns. *)
Definition index_row (highlight width : Z) (i : nat) (slide : Slide) : str :=
  let num := PyStr.format_2d (Z.of_nat i + 1) in
  if Z.of_nat i =? highlight
  then
    let line := [POINTER; SPACE] ++ num ++ lit ". " ++ title slide in
    let line := line ++ Py.repeat_char SPACE (width - Py.len line) in
    [ESCAPE] ++ lit "[7m" ++ line ++ [ESCAPE] ++ lit "[0m"
  else lit "  " ++ num ++ lit ". " ++ title slide.

Definition _render_index (self : Slideshow) (selected_index : option Z)
    (width : Z) : list str :=
  let highlight :=
    match selected_index with
    | Some selected => selected
    | None => current_index self
    end in
  [ [ESCAPE] ++ lit "[1m" ++ Py.repeat_char DOUBLE_H width
      ++ [ESCAPE] ++ lit "[0m";
    [ESCAPE] ++ lit "[1mSLIDE INDEX" ++ [ESCAPE] ++ lit "[0m";
    Py.repeat_char DOUBLE_H width;
    [] ]
  ++ imap (index_row highlight width) (slides self)
  ++ [ [];
       Py.repeat_char BOX_H width;
       lit "[" ++ [ARROW_UP] ++ lit "/k]up [" ++ [ARROW_DOWN]
         ++ lit "/j]down [ENTER]select [ESC/q]cancel" ].

(** How a key ends one turn of the main loop. *)
Inductive Action : Type :=
  | Redraw (w : World) (self : Slideshow)    (* the branch ends in [_render_slide] *)
  | Idle (w : World) (self : Slideshow)      (* nothing to draw *)
  | Break (w : World) (self : Slideshow)     (* [break] *)
  | Raise (e : Exception) (w : World) (self : Slideshow)
  | Blocked (w : World) (self : Slideshow).  (* still inside the index loop *)

(** How a run of the loop stands after the turns it was given. *)
Inductive Outcome : Set :=
  | Waiting                  (* the loop is reading the next key *)
  | Quit                     (* the loop was left by a quit key *)
  | Raised (e : Exception)   (* an exception left the loop *)
  | NoSlides.                (* [run] returned at once: the deck is empty *)

Section Session.

Variable east_asian_width : codepoint -> EastAsianWidth.

(** The answer of [os.get_terminal_size()] to the n-th query; [None] is
    OSError. *)
Variable terminal : nat -> option (Z * Z).

(** [ch.isdigit()] and [int(s)]; [None] is ValueError. *)
Variable isdigit : codepoint -> bool.
Variable int : str -> option Z.

Definition _get_terminal_size (w : World) : Z * Z * World :=
  (match terminal (clock w) with
   | Some size => size
   | None => (80, 24)
   end,
   mkWorld (stdin w) (S (clock w)) (screens w)).

(** The [while] loop of [_get_number_input] over the characters to come,
    with [num_str] and the text printed so far; [None] is the return on
    escape. *)
Fixpoint number_loop (input : list codepoint) (num_str printed : str)
    : option str * list codepoint * str :=
  match input with
  | [] => (Some num_str, [], printed)
  | ch :: input =>
      if (ch =? 13) || (ch =? 10) then (Some num_str, input, printed)
      else if ch =? 127
      then
        if Py.truthy num_str
        then number_loop input (Py.slice num_str 0 (-1)) (printed ++ [8; 32; 8])
        else number_loop input num_str printed
      else if ch =? ESCAPE then (None, input, printed)
      else if isdigit ch
           then number_loop input (num_str ++ [ch]) (printed ++ [ch])
           else number_loop input num_str printed
  end.

Definition _get_number_input (prompt : str) (w : World)
    : (Exception + option Z) * World :=
  let '(typed, input, printed) :=
    number_loop (stdin w) [] ([NEWLINE] ++ prompt) in
  let w := mkWorld input (clock w) (screens w ++ [PromptText printed]) in
  match typed with
  | None => (inr None, w)
  | Some num_str =>
      if Py.truthy num_str
      then match int num_str with
           | Some n => (inr (Some n), w)
           | None => (inl ValueError, w)
           end
      else (inr None, w)
  end.

(** [_render_slide] with the terminal asked for its size. *)
Definition render (w : World) (self : Slideshow) : option (World * Slideshow) :=
  let '(width, height, w) := _get_terminal_size w in
  '(self, frame) ← _render_slide east_asian_width self width height;
  Some (show w (SlideScreen frame), self).

(** [_render_index] and [_render_help] with the terminal asked. *)
Definition show_index (w : World) (self : Slideshow) (selected : Z) : World :=
  let '(width, height, w) := _get_terminal_size w in
  show w (IndexScreen (_render_index self (Some selected) width)).

Definition show_help (w : World) : World :=
  let '(width, height, w) := _get_terminal_size w in
  show w HelpScreen.

(** The inner loop of the index screen, run for at most [fuel] turns:
    whether it was left, the world and the session. *)
Fixpoint index_loop (fuel : nat) (w : World) (self : Slideshow) (selected : Z)
    : bool * World * Slideshow :=
  match fuel with
  | O => (false, w, self)
  | S fuel =>
      let '(key2, w) := _get_keypress w in
      if PyStr.in_tuple key2 [lit "k"; KEY_UP]
      then
        let selected := Z.max 0 (selected - 1) in
        index_loop fuel (show_index w self selected) self selected
      else if PyStr.in_tuple key2 [lit "j"; KEY_DOWN]
      then
        let selected := Z.min (Py.len (slides self) - 1) (selected + 1) in
        index_loop fuel (show_index w self selected) self selected
      else if PyStr.in_tuple key2 [[13]; [10]; lit " "]
      then (true, w, fst (goto_slide self (selected + 1)))
      else if PyStr.in_tuple key2 [lit "q"; KEY_ESC; [ESCAPE]; lit "i"]
      then (true, w, self)
      else index_loop fuel w self selected
  end.

(** The branches of the main loop for one key. *)
Definition key_action (fuel : nat) (key : str) (w : World) (self : Slideshow)
    : Action :=
  if PyStr.in_tuple key [lit "j"; KEY_DOWN]
  then Redraw w (scroll_down self 3)
  else if PyStr.in_tuple key [lit "k"; KEY_UP]
  then Redraw w (scroll_up self 3)
  else if PyStr.in_tuple key [lit "n"; lit " "; [13]; [10]; KEY_RIGHT]
  then Redraw w (fst (next_slide self))
  else if PyStr.in_tuple key [lit "p"; [127]; KEY_LEFT]
  then Redraw w (fst (prev_slide self))
  else if PyStr.eq key (lit "f")
  then Redraw w (set_scroll_offset (set_current_index self 0) 0)
  else if PyStr.eq key (lit "l")
  then Redraw w (set_scroll_offset
                   (set_current_index self (Py.len (slides self) - 1)) 0)
  else if PyStr.eq key (lit "g")
  then
    match _get_number_input (lit "Go to slide: ") w with
    | (inl e, w) => Raise e w self
    | (inr (Some num), w) => Redraw w (fst (goto_slide self num))
    | (inr None, w) => Redraw w self
    end
  else if PyStr.eq key (lit "s")
  then Redraw w (set_show_notes self (negb (show_notes self)))
  else if PyStr.eq key (lit "+") || PyStr.eq key (lit "=")
  then
    if show_notes self
    then Redraw w (set_notes_height self (Z.min (notes_height self + 2) 20))
    else Idle w self
  else if PyStr.eq key (lit "-") || PyStr.eq key (lit "_")
  then
    if show_notes self
    then Redraw w (set_notes_height self (Z.max (notes_height self - 2) 2))
    else Idle w self
  else if PyStr.eq key (lit "i")
  then
    let selected := current_index self in
    let w := show_index w self selected in
    match index_loop fuel w self selected with
    | (true, w, self) => Redraw w self
    | (false, w, self) => Blocked w self
    end
  else if PyStr.in_tuple key [lit "h"; lit "?"]
  then
    let w := show_help w in
    let '(_, w) := _get_keypress w in
    Redraw w self
  else if PyStr.eq key (lit "r")
  then Redraw w self
  else if PyStr.in_tuple key [lit "q"; lit "x"; KEY_ESC; [3]]
  then Break w self
  else Idle w self.

(** The [while True] loop of [run], for at most [fuel] turns. *)
Fixpoint run_loop (fuel : nat) (w : World) (self : Slideshow)
    : Outcome * World * Slideshow :=
  match fuel with
  | O => (Waiting, w, self)
  | S fuel =>
      let '(key, w) := _get_keypress w in
      match key_action fuel key w self with
      | Redraw w self =>
          match render w self with
          | Some (w, self) => run_loop fuel w self
          | None => (Raised IndexError, w, self)
          end
      | Idle w self => run_loop fuel w self
      | Break w self => (Quit, w, self)
      | Raise e w self => (Raised e, w, self)
      | Blocked w self => (Waiting, w, self)
      end
  end.

(** [run]: the first render, the loop, and the [finally] clause. *)
Definition run (fuel : nat) (w : World) (self : Slideshow)
    : Outcome * World * Slideshow :=
  if negb (Py.truthy (slides self))
  then (NoSlides, show w (Notice (lit "No slides found!")), self)
  else
    let '(outcome, w, self) :=
      match render w self with
      | Some (w, self) => run_loop fuel w self
      | None => (Raised IndexError, w, self)
      end in
    (outcome, show w (Notice (lit "Slideshow ended.")), self).

End Session.

(** Sample parameters: a terminal of 80 by 24 that never changes, the
    ASCII digits, and decimal numerals read in base ten. *)
Definition terminal_80_24 (n : nat) : option (Z * Z) := Some (80, 24).

Definition ascii_isdigit (ch : codepoint) : bool := (48 <=? ch) && (ch <=? 57).

Definition ascii_int (s : str) : option Z :=
  if forallb ascii_isdigit s && Py.truthy s
  then Some (fold_left (fun n ch => 10 * n + (ch - 48)) s 0)
  else None.

Definition keyboard (keys : str) : World := mkWorld keys 0 [].

(** ** Vocabulary of the properties *)

(** [notes_panel_height] of a render pass. *)
Definition notes_panel_height_of (self : Slideshow) : Z :=
  if show_notes self then notes_height self + 4 else 0.

(** The lines the layout engine returns for the slide shown. *)
Definition content_lines_of (east_asian_width : codepoint -> EastAsianWidth)
    (slide : Slide) (width : Z) : list str :=
  _prepare_slide_content east_asian_width
    (_extract_ascii_art (content slide)) width.

(** The scroll offset a render pass leaves in [self]. *)
Definition clamped_offset (self : Slideshow) (total available : Z) : Z :=
  if total >? available
  then Z.max 0 (Z.min (scroll_offset self) (total - available))
  else 0.

(** The scroll keys of the main loop: [scroll_down(lines)] and
    [scroll_up(lines)]; the loop calls both with the default of 3. *)
Inductive Scroll : Set :=
  | ScrollDown (lines : Z)
  | ScrollUp (lines : Z).

Definition scroll (self : Slideshow) (key : Scroll) : Slideshow :=
  match key with
  | ScrollDown lines => scroll_down self lines
  | ScrollUp lines => scroll_up self lines
  end.

Definition scrolls (self : Slideshow) (keys : list Scroll) : Slideshow :=
  fold_left scroll keys self.

(** The available height as the specification words it: the height less
    the status bar and the notes panel, and 1 when that is less than 1. *)
Definition available_height_spec (self : Slideshow) (height : Z) : Z :=
  let available := height - 1 - notes_panel_height_of self in
  if available <? 1 then 1 else available.

(** A deck of one slide of five lines, and a deck of one slide of one line. *)
Definition tall_deck : Slideshow :=
  mkSlideshow
    [slide_of (Py.join [NEWLINE]
                 [lit "one"; lit "two"; lit "three"; lit "four"; lit "five"])]
    0 0 false 6.

Definition one_line_deck : Slideshow :=
  mkSlideshow [slide_of (lit "x")] 0 0 false 6.

(** A deck of three slides, the first shown. *)
Definition three_slide_deck : Slideshow :=
  mkSlideshow
    [slide_of (Py.join [NEWLINE]
                 [lit "one"; lit "two"; lit "three"; lit "four"; lit "five"]);
     slide_of (lit "second"); slide_of (lit "third")]
    0 4 false 6.

(** A deck of one slide with speaker notes, the panel shown two rows high. *)
Definition noted_slide : Slide :=
  mkSlide (lit "slides/01.md") (lit "01.md") (lit "Demo") (lit "x")
    (lit "alpha beta gamma delta").

Definition noted_deck : Slideshow := mkSlideshow [noted_slide] 0 0 true 2.

(** A fence marker line: [line.strip().startswith(three backticks)]. *)
Definition is_fence (line : str) : bool :=
  Py.startswith (lit "```") (Py.strip line).

(** The lines inside fenced blocks, said without the loop: line [i] is
    inside a block when it is no marker line and an odd number of marker
    lines come before it. *)
Definition fences_before (lines : list str) (i : nat) : nat :=
  length (List.filter is_fence (take i lines)).

Definition in_fenced_block (lines : list str) (numbered : nat * str) : bool :=
  negb (is_fence (snd numbered))
  && Nat.odd (fences_before lines (fst numbered)).

Definition fenced_lines (lines : list str) : list str :=
  map snd
    (List.filter (in_fenced_block lines)
       (combine (seq 0 (length lines)) lines)).

(** The fenced content as the specification words it: the lines between
    the first opening marker and the first closing marker, or the whole body
    when there is no marker. *)
Fixpoint after_first_fence (lines : list str) : option (list str) :=
  match lines with
  | [] => None
  | line :: rest => if is_fence line then Some rest else after_first_fence rest
  end.

Fixpoint up_to_fence (lines : list str) : list str :=
  match lines with
  | [] => []
  | line :: rest => if is_fence line then [] else line :: up_to_fence rest
  end.

Definition extract_first_block (content : str) : str :=
  match after_first_fence (Py.split_char NEWLINE content) with
  | Some rest => Py.join [NEWLINE] (up_to_fence rest)
  | None => content
  end.

(** A body with two fenced blocks, and a body whose only block is empty. *)
Definition two_blocks_body : str :=
  Py.join [NEWLINE]
    [lit "# Title"; lit "```"; lit "a"; lit "```"; lit "between";
     lit "```"; lit "b"; lit "```"].

Definition empty_block_body : str :=
  Py.join [NEWLINE] [lit "# Title"; lit "```"; lit "```"].

(** The parts of a slide file as the specification words them: the text
    before the first marker and the text after it, trimmed; no marker, no
    notes. *)
Definition MARKER : str := lit "## Speaker Notes".

Definition split_at_first_marker (text : str) : str * str :=
  match Py.partition MARKER text with
  | Some (before, after) => (Py.strip before, Py.strip after)
  | None => (Py.strip text, [])
  end.

(** The title as the specification words it: the placeholder for an empty
    body, else the first line less a leading [# ]. *)
Definition title_of_body (body : str) : str :=
  match body with
  | [] => lit "Untitled"
  | _ =>
      let first_line := List.hd [] (Py.split_char NEWLINE body) in
      if Py.startswith (lit "# ") first_line then drop 2 first_line
      else first_line
  end.

(** A slide file in which the marker occurs twice, and one whose heading
    holds a second [# ]. *)
Definition twice_marked_file : str :=
  Py.join [NEWLINE]
    [lit "# Title"; lit "body"; lit "## Speaker Notes"; lit "first";
     lit "## Speaker Notes"; lit "second"].

Definition hash_in_title_file : str :=
  Py.join [NEWLINE] [lit "# Issue # 5"; lit "body"].

(** The display width of the widest line. *)
Definition widest (east_asian_width : codepoint -> EastAsianWidth)
    (lines : list str) : Z :=
  foldr (fun line m => Z.max (get_display_width east_asian_width line) m) 0 lines.

(** A session in order: the index inside the deck, the scroll offset
    not negative, the notes panel between 2 and 20 rows. *)
Definition session_ok (self : Slideshow) : Prop :=
  0 <= current_index self < Py.len (slides self)
  /\ 0 <= scroll_offset self
  /\ 2 <= notes_height self <= 20.

(** The session an action hands on. *)
Definition action_session (action : Action) : Slideshow :=
  match action with
  | Redraw _ self | Idle _ self | Break _ self | Raise _ _ self
  | Blocked _ self => self
  end.

(** One turn of the main loop: the key read and the branch taken. *)
Definition turn (terminal : nat -> option (Z * Z))
    (isdigit : codepoint -> bool) (int : str -> option Z)
    (fuel : nat) (w : World) (self : Slideshow) : Action :=
  let '(key, w) := _get_keypress w in
  key_action terminal isdigit int fuel key w self.

(** A character that [_get_number_input] takes as a digit and nothing
    else. *)
Definition plain_digit (isdigit : codepoint -> bool) (ch : codepoint) : Prop :=
  isdigit ch = true /\ ch <> 13 /\ ch <> 10 /\ ch <> 127 /\ ch <> ESCAPE.

(** A world that differs from [w] in the characters still to be read. *)
Definition with_stdin (w : World) (input : list codepoint) : World :=
  mkWorld input (clock w) (screens w).

(** A line of the wrapper is fine when it fits the width or is one word. *)
Definition fits_or_word (width : Z) (words : list str) (line : str) : Prop :=
  Py.len line <= width \/ In line words.

(** A classification of digits with one character more than the ASCII
    digits: the superscript two, which [str.isdigit] accepts and [int]
    rejects. *)
Definition isdigit_excerpt (ch : codepoint) : bool :=
  ascii_isdigit ch || (ch =? 178).              (* U+00B2 *)

(** * Properties *)

(** ** Concrete runs *)

(** Two wide characters take four columns, and so do four narrow ones. *)
Example display_width_wide :
  get_display_width east_asian_width_excerpt [27979; 35797] = 4
  /\ get_display_width east_asian_width_excerpt (lit "test") = 4.
Proof. by vm_compute. Qed.

(** Greedy packing under a budget of three characters. *)
Example wrap_text_greedy :
  _wrap_text (lit "a b c d e") 3 = [lit "a b"; lit "c d"; lit "e"].
Proof. by vm_compute. Qed.

(** Runs of whitespace do not reach the wrapped lines. *)
Example wrap_text_spacing :
  _wrap_text [32; 32; 97; 9; 10; 32; 98; 32] 10 = [lit "a b"].
Proof. by vm_compute. Qed.

(** ** Python built-ins *)

Section PyFacts.

Lemma len_app {A} (l k : list A) : Py.len (l ++ k) = Py.len l + Py.len k.
Proof. unfold Py.len. rewrite length_app. lia. Qed.

Lemma truthy_app_r {A} (l : list A) (x : A) : Py.truthy (l ++ [x]) = true.
Proof. by destruct l. Qed.

Lemma split_char_truthy (sep : codepoint) (s : str) :
  Py.truthy (Py.split_char sep s) = true.
Proof.
  induction s as [|c s IH]; simpl; [done|].
  destruct (c =? sep); [done|]. by destruct (Py.split_char sep s).
Qed.

End PyFacts.

(** ** Text metrics *)

Section TextMetrics.

Variable east_asian_width : codepoint -> EastAsianWidth.

Abbreviation display_width := (get_display_width east_asian_width).
Abbreviation char_width c := (if in_F_W (east_asian_width c) then 2 else 1).

Lemma display_width_fold (text : str) (w : Z) :
  fold_left
    (fun width char =>
       if in_F_W (east_asian_width char) then width + 2 else width + 1)
    text w
  = w + display_width text.
Proof.
  unfold get_display_width.
  revert w; induction text as [|c text IH]; intros w; simpl; [lia|].
  destruct (in_F_W (east_asian_width c)); rewrite IH, (IH (0 + _)); lia.
Qed.

Lemma display_width_nil : display_width [] = 0.
Proof. reflexivity. Qed.

Lemma display_width_cons (c : codepoint) (text : str) :
  display_width (c :: text) = char_width c + display_width text.
Proof.
  unfold get_display_width at 1; simpl. rewrite display_width_fold.
  destruct (in_F_W (east_asian_width c)); lia.
Qed.

Lemma display_width_app (a b : str) :
  display_width (a ++ b) = display_width a + display_width b.
Proof.
  induction a as [|c a IH]; simpl; [rewrite display_width_nil; lia|].
  rewrite !display_width_cons, IH. lia.
Qed.

Lemma display_width_nonneg (text : str) : 0 <= display_width text.
Proof.
  induction text as [|c text IH]; [rewrite display_width_nil; lia|].
  rewrite display_width_cons. destruct (in_F_W (east_asian_width c)); lia.
Qed.

Lemma display_width_pos (c : codepoint) (text : str) :
  1 <= display_width (c :: text).
Proof.
  rewrite display_width_cons. pose proof (display_width_nonneg text).
  destruct (in_F_W (east_asian_width c)); lia.
Qed.

Lemma display_width_narrow (c : codepoint) (n : Z) :
  in_F_W (east_asian_width c) = false ->
  display_width (Py.repeat_char c n) = Z.max 0 n.
Proof.
  intros Hc. unfold Py.repeat_char.
  replace (Z.max 0 n) with (Z.of_nat (Z.to_nat n)) by lia.
  induction (Z.to_nat n) as [|k IH]; simpl; [done|].
  rewrite display_width_cons, IH, Hc. lia.
Qed.

(** What the loop of [truncate_to_width] returns: [result] extended by the
    longest prefix of [text] that fits, and [truncated] exactly when a
    character was left out; the loop stops before the first character that
    would exceed the budget. *)
Lemma truncate_loop_spec (effective_max : Z) (text : str) (w : Z) (result : str) :
  exists kept dropped,
    text = kept ++ dropped
    /\ truncate_loop east_asian_width effective_max text w result
       = (result ++ kept, Py.truthy dropped)
    /\ (kept <> [] -> w + display_width kept <= effective_max)
    /\ (forall c rest, dropped = c :: rest ->
          w + display_width kept + char_width c > effective_max).
Proof.
  revert w result; induction text as [|c text IH]; intros w result; simpl.
  - exists [], []. split; [done|]. split; [by rewrite app_nil_r|]. by split.
  - destruct (Z.gtb_spec (w + char_width c) effective_max) as [Hgt|Hle].
    + exists [], (c :: text). rewrite display_width_nil.
      split; [done|]. split; [by rewrite app_nil_r|]. split; [done|].
      intros ? ? [= <- <-]. lia.
    + destruct (IH (w + char_width c) (result ++ [c]))
        as (kept & dropped & -> & Hrun & Hfit & Hstop).
      exists (c :: kept), dropped. rewrite Hrun, <- app_assoc. simpl.
      split; [done|]. split; [done|]. split.
      * intros _. rewrite display_width_cons. destruct kept as [|k kept].
        -- rewrite display_width_nil. lia.
        -- specialize (Hfit ltac:(done)). lia.
      * intros c' rest Hd. specialize (Hstop c' rest Hd).
        rewrite display_width_cons. lia.
Qed.

Lemma truncate_to_width_cut (text : str) (max_width : Z) (add_indicator : bool) :
  let effective_max := if add_indicator then max_width - 1 else max_width in
  exists kept dropped,
    text = kept ++ dropped
    /\ truncate_to_width east_asian_width text max_width add_indicator
       = kept ++ (if Py.truthy dropped && add_indicator then [ELLIPSIS] else [])
    /\ (kept <> [] -> display_width kept <= effective_max)
    /\ (forall c rest, dropped = c :: rest ->
          display_width kept + char_width c > effective_max).
Proof.
  intros effective_max. unfold truncate_to_width. fold effective_max.
  destruct (truncate_loop_spec effective_max text 0 [])
    as (kept & dropped & Htext & -> & Hfit & Hstop).
  exists kept, dropped. simpl.
  split; [done|]. split; [|split].
  - destruct (Py.truthy dropped && add_indicator); [done|by rewrite app_nil_r].
  - intros Hk. specialize (Hfit Hk). lia.
  - intros c rest Hd. specialize (Hstop c rest Hd). lia.
Qed.

(** The shape of the result of [truncate_to_width]: the longest prefix that
    fits the effective budget, then the ellipsis exactly when a character
    was left out and the indicator is asked for. *)
Lemma truncate_to_width_spec (text : str) (max_width : Z) (add_indicator : bool) :
  let effective_max := if add_indicator then max_width - 1 else max_width in
  exists kept dropped,
    text = kept ++ dropped
    /\ truncate_to_width east_asian_width text max_width add_indicator
       = kept ++ (if Py.truthy dropped && add_indicator then [ELLIPSIS] else [])
    /\ (kept <> [] -> display_width kept <= effective_max)
    /\ (forall c rest, dropped = c :: rest ->
          display_width kept + char_width c > effective_max).
Proof. intros. by apply truncate_to_width_cut. Qed.

Hypothesis ellipsis_narrow : in_F_W (east_asian_width ELLIPSIS) = false.
Hypothesis space_narrow : in_F_W (east_asian_width SPACE) = false.

(** The result of [truncate_to_width] fits the budget, once the budget
    has the column the indicator needs. *)
Lemma truncate_to_width_bound (text : str) (max_width : Z) (add_indicator : bool) :
  (if add_indicator then 1 <= max_width else 0 <= max_width) ->
  display_width (truncate_to_width east_asian_width text max_width add_indicator)
  <= max_width.
Proof.
  intros Hbudget.
  destruct (truncate_to_width_cut text max_width add_indicator)
    as (kept & dropped & _ & -> & Hfit & _).
  rewrite display_width_app.
  assert (display_width kept
          <= if add_indicator then max_width - 1 else max_width) as Hkept.
  { destruct kept as [|k kept]; [|by apply Hfit].
    rewrite display_width_nil. destruct add_indicator; lia. }
  destruct add_indicator; simpl in *.
  - destruct (Py.truthy dropped); simpl.
    + rewrite display_width_cons, display_width_nil, ellipsis_narrow. lia.
    + rewrite display_width_nil. lia.
  - rewrite andb_false_r, display_width_nil. lia.
Qed.

(** The result of [truncate_to_width] is at most [max_width] columns wide
    once the budget has the column the indicator needs. *)
Lemma truncate_to_width_fits (text : str) (max_width : Z) (add_indicator : bool) :
  (if add_indicator then 1 <= max_width else 0 <= max_width) ->
  display_width (truncate_to_width east_asian_width text max_width add_indicator)
  <= max_width.
Proof. intros. by apply truncate_to_width_bound. Qed.

(** ** Layout engine *)

Lemma max_content_width_nonneg (lines : list str) (m : Z) :
  m <= fold_left
         (fun max_content_width line =>
            let dw := display_width line in
            if dw >? max_content_width then dw else max_content_width)
         lines m.
Proof.
  revert m; induction lines as [|line lines IH]; intros m; simpl; [lia|].
  etrans; [|apply IH].
  destruct (Z.gtb_spec (display_width line) m); lia.
Qed.

(** On a terminal of at least one column every line of
    [_prepare_slide_content] is exactly [width] columns wide. *)
Lemma prepare_slide_content_width (text : str) (width : Z) :
  1 <= width ->
  Forall (fun line => display_width line = width)
    (_prepare_slide_content east_asian_width text width).
Proof.
  intros Hwidth. unfold _prepare_slide_content.
  set (lines := Py.split_char NEWLINE text).
  set (mcw := fold_left _ lines 0).
  assert (0 <= mcw) as Hmcw by apply max_content_width_nonneg.
  set (left_padding := if mcw >=? width then 0 else (width - mcw) / 2).
  assert (0 <= left_padding /\ 1 <= width - left_padding) as [Hlp0 Hlp1].
  { subst left_padding. destruct (Z.geb_spec mcw width); [lia|].
    split; [apply Z.div_pos; lia|].
    assert ((width - mcw) / 2 <= width / 2) by (apply Z.div_le_mono; lia).
    assert (width / 2 < width) by (apply Z.div_lt; lia). lia. }
  apply Forall_map, Forall_forall. intros line _. simpl.
  set (fitted := if left_padding + display_width line >? width then _ else line).
  assert (left_padding + display_width fitted <= width) as Hfit.
  { subst fitted. destruct (Z.gtb_spec (left_padding + display_width line) width).
    - pose proof (truncate_to_width_bound line (width - left_padding) true Hlp1).
      lia.
    - done. }
  rewrite display_width_app, (display_width_narrow SPACE) by done.
  destruct (Z.ltb_spec (Z.max 0 left_padding + display_width fitted) width).
  - rewrite !display_width_app, !(display_width_narrow SPACE) by done. lia.
  - rewrite display_width_app, (display_width_narrow SPACE) by done. lia.
Qed.

(** On a terminal of at least one column the layout engine returns lines
    of exactly [width] columns. *)
Lemma prepare_slide_content_exact (text : str) (width : Z) :
  1 <= width ->
  Forall (fun line => display_width line = width)
    (_prepare_slide_content east_asian_width text width).
Proof. intros. by apply prepare_slide_content_width. Qed.

End TextMetrics.

(** The fit of [truncate_to_width] and the exact width of the layout, at
    concrete inputs with a wide character. *)
Lemma truncate_to_width_fits_witness :
  get_display_width east_asian_width_excerpt
    (truncate_to_width east_asian_width_excerpt
       [97; 27979; 35797; 98] 4 true) <= 4.
Proof.
  apply (truncate_to_width_fits east_asian_width_excerpt); reflexivity || lia.
Defined.

Lemma prepare_slide_content_exact_witness :
  Forall (fun line => get_display_width east_asian_width_excerpt line = 5)
    (_prepare_slide_content east_asian_width_excerpt
       [97; 27979; 35797; 27979; 10; 98] 5).
Proof.
  apply (prepare_slide_content_exact east_asian_width_excerpt);
    reflexivity || lia.
Defined.

(** *** The defect at a budget of zero columns *)

(** C6 (the code departs from the claim): with the indicator requested and
    a budget of zero columns, a non-empty text comes back as the ellipsis
    alone, one column wide, which does not fit the budget. *)
Theorem truncate_to_width_zero_budget
    (east_asian_width : codepoint -> EastAsianWidth) (c : codepoint) (text : str) :
  truncate_to_width east_asian_width (c :: text) 0 true = [ELLIPSIS]
  /\ 0 < get_display_width east_asian_width
            (truncate_to_width east_asian_width (c :: text) 0 true).
Proof.
  assert (truncate_to_width east_asian_width (c :: text) 0 true = [ELLIPSIS]) as ->.
  { unfold truncate_to_width. simpl.
    by destruct (in_F_W (east_asian_width c)). }
  split; [done|].
  pose proof (display_width_pos east_asian_width ELLIPSIS []). lia.
Qed.

(** C1 (the code departs from the claim): on a terminal of zero columns
    the one-line body [a] is laid out as the ellipsis alone, a line one
    column wide instead of zero. *)
Theorem prepare_slide_content_zero_width
    (east_asian_width : codepoint -> EastAsianWidth) :
  _prepare_slide_content east_asian_width (lit "a") 0 = [[ELLIPSIS]]
  /\ get_display_width east_asian_width [ELLIPSIS] <> 0.
Proof.
  split.
  - vm_compute.
    destruct (east_asian_width 97); destruct (east_asian_width 8230);
      reflexivity.
  - pose proof (display_width_pos east_asian_width ELLIPSIS []). lia.
Qed.

(** ** Text wrapper *)

Section Wrap.

Lemma join_cons (sep p : str) (rest : list str) :
  rest <> [] -> Py.join sep (p :: rest) = p ++ sep ++ Py.join sep rest.
Proof. by destruct rest. Qed.

Lemma join_app (sep : str) (a b : list str) :
  a <> [] -> b <> [] ->
  Py.join sep (a ++ b) = Py.join sep a ++ sep ++ Py.join sep b.
Proof.
  intros Ha Hb. induction a as [|p a IH]; [done|].
  destruct a as [|q a].
  { change ([p] ++ b) with (p :: b). rewrite join_cons by done. reflexivity. }
  change ((p :: q :: a) ++ b) with (p :: (q :: a) ++ b).
  rewrite (join_cons sep p ((q :: a) ++ b)) by done.
  rewrite IH by done. rewrite (join_cons sep p (q :: a)) by done.
  by rewrite <- !app_assoc.
Qed.

(** Joining the joined groups is joining all the words. *)
Lemma join_groups (sep : str) (groups : list (list str)) :
  Forall (fun g => g <> []) groups ->
  Py.join sep (map (Py.join sep) groups) = Py.join sep (concat groups).
Proof.
  induction 1 as [|g groups Hg Hgs IH]; [done|].
  destruct groups as [|h groups].
  - simpl. by rewrite app_nil_r.
  - change (map (Py.join sep) (g :: h :: groups))
      with (Py.join sep g :: map (Py.join sep) (h :: groups)).
    change (concat (g :: h :: groups)) with (g ++ concat (h :: groups)).
    rewrite join_cons by done. rewrite IH.
    rewrite join_app; [done..|].
    inversion Hgs; subst. by destruct h.
Qed.

(** The loop of [_wrap_text] cuts the words into groups without losing or
    reordering any: the finished lines are the joined groups, and the group
    being filled holds the rest. *)
Lemma wrap_loop_groups (width : Z) (words lines current_line : list str)
    (current_length : Z) :
  exists groups rest,
    wrap_loop width words lines current_line current_length
      = (lines ++ map (Py.join [SPACE]) groups, rest)
    /\ Forall (fun g => g <> []) groups
    /\ concat groups ++ rest = current_line ++ words.
Proof.
  revert lines current_line current_length.
  induction words as [|word words IH]; intros lines current_line current_length.
  - exists [], current_line. simpl. by rewrite !app_nil_r.
  - cbn [wrap_loop]. destruct (_ <=? width).
    + destruct (IH lines (current_line ++ [word])
                  (current_length + Py.len word
                   + (if Py.len (current_line ++ [word]) >? 1 then 1 else 0)))
        as (groups & rest & -> & Hne & Hcat).
      exists groups, rest. by rewrite Hcat, <- app_assoc.
    + destruct current_line as [|w current_line]; cbn [Py.truthy].
      * destruct (IH lines [word] (Py.len word))
          as (groups & rest & -> & Hne & Hcat).
        by exists groups, rest.
      * destruct (IH (lines ++ [Py.join [SPACE] (w :: current_line)]) [word]
                    (Py.len word))
          as (groups & rest & -> & Hne & Hcat).
        exists ((w :: current_line) :: groups), rest.
        split; [by rewrite <- app_assoc|].
        split; [by constructor|].
        cbn [concat]. by rewrite <- app_assoc, Hcat.
Qed.

Lemma wrap_text_groups (text : str) (width : Z) :
  exists groups,
    Forall (fun g => g <> []) groups
    /\ concat groups = Py.split_ws text
    /\ _wrap_text text width
       = if Py.truthy groups then map (Py.join [SPACE]) groups else [[]].
Proof.
  unfold _wrap_text.
  destruct (wrap_loop_groups width (Py.split_ws text) [] [] 0)
    as (groups & rest & -> & Hne & Hcat).
  simpl in *. destruct rest as [|w rest]; simpl.
  - exists groups. rewrite app_nil_r in *. split; [done|]. split; [done|].
    by destruct groups.
  - exists (groups ++ [w :: rest]).
    split; [apply Forall_app; split; [done|by repeat constructor]|].
    split; [by rewrite concat_app; simpl; rewrite app_nil_r|].
    rewrite !truthy_app_r, map_app. done.
Qed.

(** The words of [str.split()] are non-empty and free of whitespace. *)
Lemma split_ws_from_words (word s : str) :
  forallb (fun c => negb (Py.isspace c)) word = true ->
  Forall (fun w => w <> [] /\ forallb (fun c => negb (Py.isspace c)) w = true)
    (Py.split_ws_from word s).
Proof.
  assert (forall c w, forallb (fun c => negb (Py.isspace c)) (c :: w) = true ->
            rev (c :: w) <> []
            /\ forallb (fun c => negb (Py.isspace c)) (rev (c :: w)) = true)
    as Hrev.
  { intros c w Hw. split.
    - intros Hnil%(f_equal (@length _)). rewrite length_rev in Hnil. done.
    - apply forallb_forall. intros x Hx%in_rev.
      by apply (proj1 (forallb_forall _ _) Hw). }
  revert word; induction s as [|c s IH]; intros word Hword; simpl.
  - destruct word; [constructor|]. constructor; [by apply Hrev|constructor].
  - destruct (Py.isspace c) eqn:Hc.
    + destruct word; [by apply IH|]. constructor; [by apply Hrev|by apply IH].
    + apply IH. simpl. by rewrite Hc.
Qed.

(** C9: for every text and width, the lines of [_wrap_text] joined with
    single spaces are the whitespace-separated words of the text joined with
    single spaces; the words are non-empty and hold no whitespace, so every
    run of whitespace of the input is one space (or nothing, at the ends)
    in the output. *)
Theorem wrap_text_joins_words (text : str) (width : Z) :
  Py.join [SPACE] (_wrap_text text width) = Py.join [SPACE] (Py.split_ws text)
  /\ Forall (fun w => w <> [] /\ forallb (fun c => negb (Py.isspace c)) w = true)
       (Py.split_ws text).
Proof.
  split; [|by apply split_ws_from_words].
  destruct (wrap_text_groups text width) as (groups & Hne & <- & ->).
  destruct groups as [|g groups]; [done|].
  by apply join_groups.
Qed.

End Wrap.

(** ** Notes panel *)

Section NotesPanel.

Lemma getitem_in_range {A} (l : list A) (i : Z) :
  0 <= i < Py.len l -> exists x, Py.getitem l i = Some x.
Proof.
  intros Hi. unfold Py.getitem.
  destruct (Z.ltb_spec i 0); [lia|].
  destruct (Z.leb_spec 0 i); [|lia].
  destruct (Z.ltb_spec i (Py.len l)); [|lia]. simpl.
  apply lookup_lt_is_Some_2. unfold Py.len in *. lia.
Qed.

(** The interior rows: the wrapped lines that fit, then blank rows. *)
Lemma notes_content_lines_rows (width : Z) (wrapped_lines : list str) (n : nat) :
  map (notes_content_line width wrapped_lines) (seq 0 n)
  = map (notes_text_row width) (take n wrapped_lines)
    ++ replicate (n - length wrapped_lines) (notes_blank_row width).
Proof.
  revert wrapped_lines; induction n as [|n IH]; intros wrapped_lines.
  - by rewrite take_0.
  - rewrite <- cons_seq, <- seq_shift. cbn [map]. rewrite List.map_map.
    destruct wrapped_lines as [|line wrapped_lines].
    + specialize (IH []). rewrite take_nil in *. cbn [map app] in *.
      rewrite Nat.sub_0_r in *. cbn [replicate]. by rewrite <- IH.
    + cbn [take map app length Nat.sub]. f_equal. apply IH.
Qed.

(** C10: the notes panel shows the first wrapped lines that fit the
    interior of [panel_height - 4] rows and nothing of the rest (there is no
    scrolling: the rows depend on the first lines only), pads a shorter text
    with blank rows, and so has exactly [panel_height] rows. *)
Theorem notes_panel_rows (self : Slideshow) (slide : Slide)
    (width panel_height : Z) :
  Py.getitem (slides self) (current_index self) = Some slide ->
  4 <= panel_height ->
  let interior := Z.to_nat (panel_height - 4) in
  let wrapped_lines := notes_wrapped_lines (notes_text_of slide) (width - 4) in
  exists top_border title_line separator content_lines bottom_border,
    _render_notes_panel self width panel_height
      = Some ([top_border; title_line; separator] ++ content_lines
              ++ [bottom_border])
    /\ content_lines
       = map (notes_text_row width) (take interior wrapped_lines)
         ++ replicate (interior - length wrapped_lines) (notes_blank_row width)
    /\ Py.len content_lines = panel_height - 4
    /\ Py.len ([top_border; title_line; separator] ++ content_lines
               ++ [bottom_border]) = panel_height.
Proof.
  intros Hslide Hheight interior wrapped_lines.
  unfold _render_notes_panel. rewrite Hslide. cbn [mbind option_bind].
  fold wrapped_lines. unfold Py.range_len. fold interior.
  eexists _, _, _, _, _. split; [reflexivity|].
  assert (Py.len (map (notes_content_line width wrapped_lines) (seq 0 interior))
          = panel_height - 4) as Hlen.
  { unfold Py.len. rewrite length_map, length_seq. lia. }
  split; [apply notes_content_lines_rows|]. split; [done|].
  rewrite !len_app, Hlen. unfold Py.len. simpl. lia.
Qed.

End NotesPanel.

(** C10, at a concrete run: four wrapped lines, an interior of two rows. *)
Lemma notes_panel_rows_witness :
  exists top_border title_line separator content_lines bottom_border,
    _render_notes_panel noted_deck 9 6
      = Some ([top_border; title_line; separator] ++ content_lines
              ++ [bottom_border])
    /\ content_lines
       = map (notes_text_row 9)
           (take (Z.to_nat (6 - 4))
              (notes_wrapped_lines (notes_text_of noted_slide) (9 - 4)))
         ++ replicate
              (Z.to_nat (6 - 4)
               - length (notes_wrapped_lines (notes_text_of noted_slide) (9 - 4)))
              (notes_blank_row 9)
    /\ Py.len content_lines = 6 - 4
    /\ Py.len ([top_border; title_line; separator] ++ content_lines
               ++ [bottom_border]) = 6.
Proof.
  apply (notes_panel_rows noted_deck noted_slide 9 6); [reflexivity | lia].
Defined.

(** ** Frame composer *)

Section Render.

Variable east_asian_width : codepoint -> EastAsianWidth.

Abbreviation content_lines_of := (content_lines_of east_asian_width).

Lemma slice_length {A} (l : list A) (start count : Z) :
  0 <= start -> 0 <= count -> start + count <= Py.len l ->
  Py.len (Py.slice l start (start + count)) = count.
Proof.
  intros Hs Hc Hl. unfold Py.slice, Py.slice_bound.
  destruct (Z.ltb_spec start 0); [lia|].
  destruct (Z.ltb_spec (start + count) 0); [lia|].
  unfold Py.len in *. rewrite length_take, length_drop. lia.
Qed.

Lemma render_notes_panel_some (self : Slideshow) (slide : Slide)
    (width panel_height : Z) :
  Py.getitem (slides self) (current_index self) = Some slide ->
  exists rows, _render_notes_panel self width panel_height = Some rows.
Proof.
  intros Hslide. unfold _render_notes_panel. rewrite Hslide.
  cbn [mbind option_bind]. by eexists.
Qed.

Lemma render_status_bar_some (self : Slideshow) (slide : Slide) (width : Z)
    (scrolls : bool) (total_lines visible_lines : Z) :
  Py.getitem (slides self) (current_index self) = Some slide ->
  exists line,
    _render_status_bar self width scrolls total_lines visible_lines = Some line.
Proof.
  intros Hslide. unfold _render_status_bar. rewrite Hslide.
  cbn [mbind option_bind]. destruct (_ <? 1); [destruct (_ >? 3)|]; by eexists.
Qed.

(** A render pass on a state whose index is in range returns, and this is
    what it computes. *)
Lemma render_slide_run (self : Slideshow) (slide : Slide) (width height : Z) :
  Py.getitem (slides self) (current_index self) = Some slide ->
  let total := Py.len (content_lines_of slide width) in
  let available := height - 1 - notes_panel_height_of self in
  exists frame,
    _render_slide east_asian_width self width height
      = Some (set_scroll_offset self (clamped_offset self total available), frame)
    /\ total_content_height frame = total
    /\ available_height frame = available
    /\ needs_scroll frame = (total >? available)
    /\ (0 <= available -> Py.len (screen_lines frame) = available).
Proof.
  intros Hslide total available.
  unfold _render_slide. rewrite Hslide. cbn [mbind option_bind].
  fold (content_lines_of slide width). fold total.
  fold (notes_panel_height_of self). fold available.
  unfold clamped_offset.
  destruct (total >? available) eqn:Hscroll.
  - set (offset := Z.max 0 (Z.min (scroll_offset self) (total - available))).
    assert (0 <= offset <= total - available) as Hoffset by lia.
    set (self' := set_scroll_offset self offset).
    assert (Py.getitem (slides self') (current_index self') = Some slide)
      as Hslide' by done.
    destruct (render_status_bar_some self' slide width true total available Hslide')
      as [line ->].
    destruct (render_notes_panel_some self' slide width
                (notes_panel_height_of self) Hslide') as [rows ->].
    cbn [scroll_offset self' set_scroll_offset show_notes].
    destruct (show_notes self);
      cbn [mbind option_bind fmap option_fmap option_map];
      (eexists; split; [reflexivity|]; cbn [total_content_height
         available_height needs_scroll screen_lines];
       split; [done|]; split; [done|]; split; [done|]; intros Havail;
       rewrite !len_app, (slice_length _ offset available) by (fold total; lia);
       unfold Py.len, Py.range_len; rewrite !length_replicate; lia).
  - rewrite Z.gtb_ltb in Hscroll. apply Z.ltb_ge in Hscroll.
    set (top := Z.max 0 ((available - total) / 2)).
    assert (0 <= top <= available - total) as Htop.
    { subst top. assert ((available - total) / 2 <= available - total)
        by (apply Z.div_le_upper_bound; lia).
      assert (0 <= (available - total) / 2) by (apply Z.div_pos; lia). lia. }
    set (self' := set_scroll_offset self 0).
    assert (Py.getitem (slides self') (current_index self') = Some slide)
      as Hslide' by done.
    destruct (render_status_bar_some self' slide width false total available Hslide')
      as [line ->].
    destruct (render_notes_panel_some self' slide width
                (notes_panel_height_of self) Hslide') as [rows ->].
    cbn [scroll_offset self' set_scroll_offset show_notes].
    destruct (show_notes self);
      cbn [mbind option_bind fmap option_fmap option_map];
      (eexists; split; [reflexivity|]; cbn [total_content_height
         available_height needs_scroll screen_lines];
       split; [done|]; split; [done|]; split; [done|]; intros Havail;
       rewrite !len_app; fold total; unfold Py.len, Py.range_len in *;
       rewrite !length_replicate; lia).
Qed.

(** Scrolling changes the scroll offset and nothing else. *)
Lemma scrolls_frame (self : Slideshow) (keys : list Scroll) :
  slides (scrolls self keys) = slides self
  /\ current_index (scrolls self keys) = current_index self
  /\ show_notes (scrolls self keys) = show_notes self
  /\ notes_height (scrolls self keys) = notes_height self.
Proof.
  unfold scrolls. revert self; induction keys as [|key keys IH]; intros self.
  - done.
  - simpl. destruct (IH (scroll self key)) as (-> & -> & -> & ->).
    by destruct key.
Qed.

(** C2: after any sequence of scroll-down and scroll-up transitions, a
    render pass returns and leaves the scroll offset between 0 and
    [max(0, total_content_height - available_height)], for the available
    height that the pass used. *)
Theorem scroll_offset_clamped_after_render
    (self : Slideshow) (keys : list Scroll) (width height : Z) :
  0 <= current_index self < Py.len (slides self) ->
  exists self' frame,
    _render_slide east_asian_width (scrolls self keys) width height
      = Some (self', frame)
    /\ available_height frame = height - 1 - notes_panel_height_of self
    /\ 0 <= scroll_offset self'
       <= Z.max 0 (total_content_height frame - available_height frame).
Proof.
  intros Hindex.
  destruct (scrolls_frame self keys) as (Hslides & Hcurrent & Hshow & Hheight).
  destruct (getitem_in_range (slides self) (current_index self) Hindex)
    as [slide Hslide].
  rewrite <- Hslides, <- Hcurrent in Hslide.
  destruct (render_slide_run (scrolls self keys) slide width height Hslide)
    as (frame & Hrun & Htotal & Havailable & _).
  eexists _, frame. split; [exact Hrun|].
  rewrite Htotal, Havailable. unfold notes_panel_height_of.
  rewrite Hshow, Hheight. split; [done|].
  cbn [scroll_offset set_scroll_offset]. unfold clamped_offset.
  destruct (Z.gtb_spec (Py.len (content_lines_of slide width))
              (height - 1 - (if show_notes self then notes_height self + 4 else 0)));
    lia.
Qed.

(** C7, as the code has it: a render pass on a state whose index is in
    range returns; the available height is [height - 1 - notes_panel_height]
    and is used as computed, with no lower bound of 1: the slide scrolls
    exactly when it has more lines than that, and the content region has
    exactly that many rows whenever it is not negative. *)
Theorem render_available_height (self : Slideshow) (width height : Z) :
  0 <= current_index self < Py.len (slides self) ->
  exists self' frame,
    _render_slide east_asian_width self width height = Some (self', frame)
    /\ available_height frame = height - 1 - notes_panel_height_of self
    /\ needs_scroll frame
       = (total_content_height frame >? height - 1 - notes_panel_height_of self)
    /\ (0 <= available_height frame ->
        Py.len (screen_lines frame) = available_height frame).
Proof.
  intros Hindex.
  destruct (getitem_in_range (slides self) (current_index self) Hindex)
    as [slide Hslide].
  destruct (render_slide_run self slide width height Hslide)
    as (frame & Hrun & Htotal & Havailable & Hscroll & Hrows).
  eexists _, frame. split; [exact Hrun|].
  rewrite Htotal, Havailable. by repeat split.
Qed.

End Render.

(** C2, at a concrete run. *)
Lemma scroll_offset_clamped_after_render_witness :
  exists self' frame,
    _render_slide east_asian_width_excerpt
      (scrolls tall_deck [ScrollDown 3; ScrollDown 3; ScrollUp 3; ScrollDown 3])
      80 4
      = Some (self', frame)
    /\ available_height frame = 4 - 1 - notes_panel_height_of tall_deck
    /\ 0 <= scroll_offset self'
       <= Z.max 0 (total_content_height frame - available_height frame).
Proof.
  apply (scroll_offset_clamped_after_render east_asian_width_excerpt tall_deck).
  vm_compute. split; [discriminate|reflexivity].
Defined.

(** C7, at a concrete run. *)
Lemma render_available_height_witness :
  exists self' frame,
    _render_slide east_asian_width_excerpt tall_deck 80 4 = Some (self', frame)
    /\ available_height frame = 4 - 1 - notes_panel_height_of tall_deck
    /\ needs_scroll frame
       = (total_content_height frame >? 4 - 1 - notes_panel_height_of tall_deck)
    /\ (0 <= available_height frame ->
        Py.len (screen_lines frame) = available_height frame).
Proof.
  apply (render_available_height east_asian_width_excerpt tall_deck).
  vm_compute. split; [discriminate|reflexivity].
Defined.

(** Five short lines on a terminal of 80 by 24: no scrolling, and nine
    blank rows above the content. *)
Example render_centered :
  exists self' frame,
    _render_slide east_asian_width_excerpt three_slide_deck 80 24
      = Some (self', frame)
    /\ needs_scroll frame = false
    /\ top_padding frame = 9
    /\ scroll_offset self' = 0.
Proof.
  eexists _, _. split; [vm_compute; reflexivity|]. vm_compute. by repeat split.
Qed.

(** C7, as the claim has it, fails: on a terminal one row high the
    available height of a one-line slide is 0 and is used as 0, not as 1: the
    slide counts as scrolling and none of its lines is shown. *)
Lemma render_available_height_not_clamped :
  exists self' frame,
    _render_slide east_asian_width_excerpt one_line_deck 80 1
      = Some (self', frame)
    /\ available_height_spec one_line_deck 1 = 1
    /\ available_height frame = 0
    /\ total_content_height frame = 1
    /\ needs_scroll frame = true
    /\ screen_lines frame = [].
Proof.
  eexists _, _. split; [vm_compute; reflexivity|]. vm_compute. by repeat split.
Qed.

(** ** Navigator *)

Section Navigator.

(** C8, as the code has it: from a state whose index is in range,
    [next_slide] moves to [min(current_index + 1, last)]; it resets the
    scroll offset when the index advances and leaves it as it is on the last
    slide; nothing else changes. *)
Theorem next_slide_transition (self : Slideshow) :
  0 <= current_index self < Py.len (slides self) ->
  let last := Py.len (slides self) - 1 in
  let self' := fst (next_slide self) in
  current_index self' = Z.min (current_index self + 1) last
  /\ scroll_offset self'
     = (if current_index self <? last then 0 else scroll_offset self)
  /\ slides self' = slides self
  /\ show_notes self' = show_notes self
  /\ notes_height self' = notes_height self.
Proof.
  intros Hindex last self'. subst self'. unfold next_slide. fold last.
  destruct (Z.ltb_spec (current_index self) last);
    cbn [fst current_index scroll_offset slides show_notes notes_height
         set_scroll_offset set_current_index];
    repeat split; lia.
Qed.

End Navigator.

(** C8, at a concrete state: the first of three slides, scrolled. *)
Lemma next_slide_transition_witness :
  current_index (fst (next_slide three_slide_deck)) = 1
  /\ scroll_offset (fst (next_slide three_slide_deck)) = 0.
Proof.
  assert (0 <= current_index three_slide_deck
          < Py.len (slides three_slide_deck)) as Hindex
    by (vm_compute; split; [discriminate|reflexivity]).
  destruct (next_slide_transition three_slide_deck Hindex)
    as (Hcurrent & Hscroll & _).
  split; [exact Hcurrent | exact Hscroll].
Defined.

(** C8, as the claim has it, fails: scroll down on the only slide of a
    deck, render on a terminal four rows high, then ask for the next slide:
    the index stays on the last slide and the scroll offset stays at 2. *)
Lemma next_slide_keeps_scroll_on_last :
  exists self' frame,
    _render_slide east_asian_width_excerpt (scroll_down tall_deck 3) 80 4
      = Some (self', frame)
    /\ current_index self' = Py.len (slides self') - 1
    /\ scroll_offset self' = 2
    /\ scroll_offset (fst (next_slide self')) = 2
    /\ scroll_offset (fst (next_slide self')) <> 0.
Proof.
  eexists _, _. split; [vm_compute; reflexivity|]. vm_compute. by repeat split.
Qed.

(** ** Fenced blocks *)

Section Fences.

Lemma fences_before_snoc (seen : list str) (line : str) :
  Nat.odd (length (List.filter is_fence (seen ++ [line])))
  = if is_fence line
    then negb (Nat.odd (length (List.filter is_fence seen)))
    else Nat.odd (length (List.filter is_fence seen)).
Proof.
  rewrite List.filter_app, length_app. simpl. destruct (is_fence line); simpl.
  - by rewrite Nat.add_1_r, Nat.odd_succ, Nat.negb_odd.
  - by rewrite Nat.add_0_r.
Qed.

Lemma in_fenced_block_middle (seen rest : list str) (line : str) :
  in_fenced_block (seen ++ line :: rest) (length seen, line)
  = negb (is_fence line) && Nat.odd (length (List.filter is_fence seen)).
Proof.
  unfold in_fenced_block, fences_before. cbn [fst snd].
  by rewrite take_app_length.
Qed.

(** The loop of [_extract_ascii_art] collects the lines inside blocks. *)
Lemma extract_loop_fenced (seen rest acc : list str) :
  extract_loop rest (Nat.odd (length (List.filter is_fence seen))) acc
  = acc
    ++ map snd
         (List.filter (in_fenced_block (seen ++ rest))
            (combine (seq (length seen) (length rest)) rest)).
Proof.
  revert seen acc; induction rest as [|line rest IH]; intros seen acc.
  - simpl. by rewrite app_nil_r.
  - cbn [extract_loop length seq combine List.filter].
    fold (is_fence line). rewrite in_fenced_block_middle.
    specialize (IH (seen ++ [line])).
    rewrite fences_before_snoc, <- app_assoc, length_app in IH.
    cbn [app length] in IH. rewrite Nat.add_1_r in IH.
    destruct (is_fence line); cbn [negb andb].
    + apply IH.
    + destruct (Nat.odd (length (List.filter is_fence seen))).
      * rewrite IH. cbn [map snd]. by rewrite <- app_assoc.
      * apply IH.
Qed.

Lemma extract_ascii_art_run (content : str) :
  _extract_ascii_art content
  = (if Py.truthy (fenced_lines (Py.split_char NEWLINE content))
     then Py.join [NEWLINE] (fenced_lines (Py.split_char NEWLINE content))
     else content).
Proof.
  unfold _extract_ascii_art.
  set (lines := Py.split_char NEWLINE content).
  change (extract_loop lines false [])
    with (extract_loop lines (Nat.odd (length (List.filter is_fence []))) []).
  by rewrite (extract_loop_fenced [] lines []).
Qed.

(** C3, as the code has it: the content handed to the layout engine is
    the lines inside the fenced blocks of the body, all blocks and not the
    first alone, joined by newlines; no marker line is among them; and the
    body is used whole when no line is inside a block. *)
Theorem extract_ascii_art_fenced (content : str) :
  let lines := Py.split_char NEWLINE content in
  _extract_ascii_art content
  = (if Py.truthy (fenced_lines lines)
     then Py.join [NEWLINE] (fenced_lines lines)
     else content)
  /\ Forall (fun line => is_fence line = false) (fenced_lines lines).
Proof.
  intros lines. split; [apply extract_ascii_art_run|].
  unfold fenced_lines. apply Forall_forall. intros line Hline.
  apply list_elem_of_In, in_map_iff in Hline as (numbered & <- & Hin).
  apply List.filter_In in Hin as [_ Hkept].
  by apply andb_prop in Hkept as [?%negb_true_iff _].
Qed.

(** C3, as the claim has it, fails: of a body with two fenced blocks the
    code keeps the lines of both, where the first block alone holds [a]. *)
Lemma extract_ascii_art_keeps_later_blocks :
  _extract_ascii_art two_blocks_body = Py.join [NEWLINE] [lit "a"; lit "b"]
  /\ extract_first_block two_blocks_body = lit "a"
  /\ _extract_ascii_art two_blocks_body <> extract_first_block two_blocks_body.
Proof. vm_compute. repeat split; discriminate. Qed.

(** A body whose only block is empty is used whole, markers and all. *)
Lemma extract_ascii_art_empty_block :
  _extract_ascii_art empty_block_body = empty_block_body
  /\ extract_first_block empty_block_body = [].
Proof. by vm_compute. Qed.

(** A body without marker lines is used whole. *)
Lemma extract_ascii_art_no_fence (content : str) :
  Forall (fun line => is_fence line = false) (Py.split_char NEWLINE content) ->
  _extract_ascii_art content = content.
Proof.
  intros Hlines. rewrite extract_ascii_art_run.
  assert (forall seen rest,
            Forall (fun line => is_fence line = false) (seen ++ rest) ->
            List.filter (in_fenced_block (seen ++ rest))
              (combine (seq (length seen) (length rest)) rest) = []) as Hnone.
  { intros seen rest; revert seen; induction rest as [|line rest IH];
      intros seen Hall; [done|].
    cbn [length seq combine List.filter]. rewrite in_fenced_block_middle.
    assert (List.filter is_fence seen = []) as ->.
    { apply Forall_app in Hall as [Hseen _]. clear -Hseen.
      induction Hseen as [|l seen Hl _ IHd]; [done|]. simpl. by rewrite Hl. }
    rewrite andb_false_r. specialize (IH (seen ++ [line])).
    rewrite <- app_assoc, length_app, Nat.add_1_r in IH. by apply IH. }
  specialize (Hnone [] _ Hlines). cbn [app length] in Hnone.
  unfold fenced_lines. by rewrite Hnone.
Qed.

End Fences.

(** A body without marker lines, at a concrete input. *)
Lemma extract_ascii_art_no_fence_witness :
  _extract_ascii_art (lit "# Title") = lit "# Title".
Proof. apply extract_ascii_art_no_fence. by repeat constructor. Defined.

(** ** Loader *)

Section Loader.

Lemma split_nonempty_cut (c : codepoint) (sep' s : str) :
  Py.split_nonempty c sep' s
  = match Py.partition (c :: sep') s with
    | Some (before, after) => before :: Py.split_nonempty c sep' after
    | None => [s]
    end.
Proof.
  rewrite Py.split_nonempty_equation_1.
  destruct (inspect (Py.partition (c :: sep') s)) as [[[before after]|] Hcut];
    cbn [Py.split_nonempty_unfold_clause_1]; by rewrite Hcut.
Qed.

Lemma getitem_first {A} (x : A) (l : list A) : Py.getitem (x :: l) 0 = Some x.
Proof. reflexivity. Qed.

Lemma getitem_second {A} (x y : A) (l : list A) :
  Py.getitem (x :: y :: l) 1 = Some y.
Proof.
  unfold Py.getitem. cbn [Z.ltb Z.compare Z.leb andb].
  destruct (Z.ltb_spec 1 (Py.len (x :: y :: l))) as [_|Hlen]; [done|].
  unfold Py.len in Hlen. simpl in Hlen. lia.
Qed.

Lemma len_second {A} (x y : A) (l : list A) : (Py.len (x :: y :: l) >? 1) = true.
Proof.
  destruct (Z.gtb_spec (Py.len (x :: y :: l)) 1) as [_|Hlen]; [done|].
  unfold Py.len in Hlen. simpl in Hlen. lia.
Qed.

(** What [load_slide] stores, for every file: the body is the trimmed text
    before the first marker; the notes are the trimmed text between the
    first marker and the second, or the end of the file when there is no
    second; the title is the first line of the body with every [# ]
    removed, and never the placeholder. *)
Lemma load_slide_parts (path text : str) :
  exists slide,
    load_slide path text = Some slide
    /\ content slide = fst (split_at_first_marker text)
    /\ notes slide
       = match Py.partition MARKER text with
         | Some (_, after) =>
             match Py.partition MARKER after with
             | Some (between, _) => Py.strip between
             | None => Py.strip after
             end
         | None => []
         end
    /\ Some (title slide)
       = Py.replace (lit "# ") []
           (List.hd [] (Py.split_char NEWLINE (content slide))).
Proof.
  unfold load_slide, split_at_first_marker.
  change (lit "## Speaker Notes") with MARKER.
  change (Py.split MARKER text)
    with (Some (Py.split_nonempty 35 (lit "# Speaker Notes") text)).
  cbn [mbind option_bind]. rewrite split_nonempty_cut.
  change (35 :: lit "# Speaker Notes") with MARKER.
  assert (forall body : str,
            (if Py.truthy (Py.split_char NEWLINE body)
             then Py.getitem (Py.split_char NEWLINE body) 0
                    ≫= Py.replace (lit "# ") []
             else Some (lit "Untitled"))
            = Py.replace (lit "# ") []
                (List.hd [] (Py.split_char NEWLINE body)))
    as Htitle.
  { intros body. pose proof (split_char_truthy NEWLINE body) as Hlines.
    rewrite Hlines. by destruct (Py.split_char NEWLINE body). }
  assert (forall line : str, exists short,
            Py.replace (lit "# ") [] line = Some short) as Hreplace.
  { intros line. by eexists. }
  destruct (Py.partition MARKER text) as [[before after]|].
  - rewrite split_nonempty_cut. change (35 :: lit "# Speaker Notes") with MARKER.
    destruct (Py.partition MARKER after) as [[between rest]|];
      rewrite getitem_first, len_second, getitem_second;
      cbn [mbind option_bind fmap option_fmap option_map fst];
      rewrite Htitle;
      [destruct (Hreplace (List.hd [] (Py.split_char NEWLINE (Py.strip before))))
         as [short Hshort] ..];
      rewrite Hshort; cbn [mbind option_bind];
      (eexists; split; [reflexivity|]; by repeat split).
  - rewrite getitem_first.
    cbn [mbind option_bind fmap option_fmap option_map fst].
    change (Py.len [text] >? 1) with false. cbn [mbind option_bind].
    rewrite Htitle.
    destruct (Hreplace (List.hd [] (Py.split_char NEWLINE (Py.strip text))))
      as [short Hshort].
    rewrite Hshort; cbn [mbind option_bind].
    eexists; split; [reflexivity|]; by repeat split.
Qed.

(** What loading one slide file stores: body, notes and title. *)
Lemma load_slide_run (path text : str) :
  exists slide,
    load_slide path text = Some slide
    /\ content slide = fst (split_at_first_marker text)
    /\ notes slide
       = match Py.partition MARKER text with
         | Some (_, after) =>
             match Py.partition MARKER after with
             | Some (between, _) => Py.strip between
             | None => Py.strip after
             end
         | None => []
         end
    /\ Some (title slide)
       = Py.replace (lit "# ") []
           (List.hd [] (Py.split_char NEWLINE (content slide))).
Proof. intros. by apply load_slide_parts. Qed.

(** A file in which the marker occurs at most once is split as the
    specification says. *)
Lemma load_slide_single_marker (path text : str) :
  (forall before after,
     Py.partition MARKER text = Some (before, after) ->
     Py.partition MARKER after = None) ->
  exists slide,
    load_slide path text = Some slide
    /\ (content slide, notes slide) = split_at_first_marker text.
Proof.
  intros Honce. destruct (load_slide_parts path text)
    as (slide & Hload & Hcontent & Hnotes & _).
  exists slide. split; [done|]. rewrite Hcontent, Hnotes.
  unfold split_at_first_marker in *.
  destruct (Py.partition MARKER text) as [[before after]|]; [|done].
  by rewrite (Honce before after).
Qed.

End Loader.

(** A file with one marker, at a concrete input. *)
Lemma load_slide_single_marker_witness :
  exists slide,
    load_slide (lit "slides/01.md")
      (Py.join [NEWLINE] [lit "# Title"; lit "## Speaker Notes"; lit "say hello"])
      = Some slide
    /\ (content slide, notes slide)
       = split_at_first_marker
           (Py.join [NEWLINE]
              [lit "# Title"; lit "## Speaker Notes"; lit "say hello"]).
Proof.
  apply load_slide_single_marker. intros before after.
  vm_compute. by intros [= <- <-].
Defined.

(** C4 (the code departs from the claim): in a file where the marker
    occurs twice the notes stop at the second marker; what follows it is in
    neither the body nor the notes. *)
Theorem load_slide_second_marker :
  exists slide,
    load_slide (lit "slides/01.md") twice_marked_file = Some slide
    /\ content slide = fst (split_at_first_marker twice_marked_file)
    /\ notes slide = lit "first"
    /\ snd (split_at_first_marker twice_marked_file)
       = Py.join [NEWLINE] [lit "first"; lit "## Speaker Notes"; lit "second"]
    /\ notes slide <> snd (split_at_first_marker twice_marked_file).
Proof.
  eexists. split; [vm_compute; reflexivity|]. vm_compute. by repeat split.
Qed.

(** C5 (the code departs from the claim): the title of an empty body is
    the empty string and not the placeholder, and every [# ] of the first
    line is removed, not the leading one alone. *)
Theorem load_slide_title :
  (exists slide,
     load_slide (lit "slides/01.md") [] = Some slide
     /\ content slide = []
     /\ title slide = []
     /\ title_of_body (content slide) = lit "Untitled")
  /\ (exists slide,
        load_slide (lit "slides/01.md") hash_in_title_file = Some slide
        /\ title slide = lit "Issue 5"
        /\ title_of_body (content slide) = lit "Issue # 5").
Proof.
  split; (eexists; split; [vm_compute; reflexivity|]; vm_compute; by repeat split).
Qed.

(** ** More on text metrics *)

Section MoreTextMetrics.

Variable east_asian_width : codepoint -> EastAsianWidth.

Abbreviation dw := (get_display_width east_asian_width).

(** The display width counts every character once or twice, and adds up
    over concatenation. *)
Theorem display_width_measure (a b : str) :
  Py.len a <= dw a <= 2 * Py.len a
  /\ dw (a ++ b) = dw a + dw b.
Proof.
  split; [|apply display_width_app].
  induction a as [|c a IH]; [by vm_compute|].
  rewrite display_width_cons. unfold Py.len in *. cbn [length].
  destruct (in_F_W (east_asian_width c)); lia.
Qed.

(** A text within the effective budget comes back as it is. *)
Theorem truncate_to_width_fitting (text : str) (max_width : Z)
    (add_indicator : bool) :
  dw text <= (if add_indicator then max_width - 1 else max_width) ->
  truncate_to_width east_asian_width text max_width add_indicator = text.
Proof.
  intros Hfits.
  destruct (truncate_to_width_cut east_asian_width text max_width add_indicator)
    as (kept & dropped & Htext & -> & _ & Hstop).
  destruct dropped as [|c rest].
  - cbn [Py.truthy andb]. by rewrite Htext.
  - specialize (Hstop c rest eq_refl). subst text.
    rewrite display_width_app, display_width_cons in Hfits.
    pose proof (display_width_nonneg east_asian_width rest). lia.
Qed.

Hypothesis space_narrow : in_F_W (east_asian_width SPACE) = false.


End MoreTextMetrics.


Lemma truncate_to_width_fitting_witness :
  truncate_to_width east_asian_width_excerpt [97; 27979] 4 true = [97; 27979].
Proof.
  apply (truncate_to_width_fitting east_asian_width_excerpt).
  vm_compute. discriminate.
Defined.

(** ** More on the layout engine *)

Section MoreLayout.

Variable east_asian_width : codepoint -> EastAsianWidth.

Abbreviation dw := (get_display_width east_asian_width).

Lemma max_content_width_widest (lines : list str) (m : Z) :
  0 <= m ->
  fold_left
    (fun max_content_width line =>
       let dw := dw line in
       if dw >? max_content_width then dw else max_content_width)
    lines m
  = Z.max m (widest east_asian_width lines).
Proof.
  revert m; induction lines as [|line lines IH]; intros m Hm.
  - unfold widest. cbn [fold_left foldr]. lia.
  - cbn [fold_left]. rewrite IH by (destruct (Z.gtb_spec (dw line) m); lia).
    unfold widest. cbn [foldr].
    destruct (Z.gtb_spec (dw line) m); lia.
Qed.

Lemma widest_nonneg (lines : list str) : 0 <= widest east_asian_width lines.
Proof. induction lines; unfold widest in *; cbn [foldr]; lia. Qed.

Lemma widest_bound (lines : list str) (line : str) :
  In line lines -> dw line <= widest east_asian_width lines.
Proof.
  induction lines as [|l lines IH]; [done|].
  unfold widest in *. cbn [foldr]. intros [->|Hin]; [lia|].
  specialize (IH Hin). lia.
Qed.

Hypothesis space_narrow : in_F_W (east_asian_width SPACE) = false.

(** When no line of the body is wider than the terminal, no line is cut:
    every line keeps its text and gets the same left margin, half of the
    room the widest line leaves (rounded down), then spaces up to the
    width.  The body is centred as a block, its lines left-aligned with each
    other. *)
Theorem prepare_slide_content_centered (text : str) (width : Z) :
  let lines := Py.split_char NEWLINE text in
  let left_padding := (width - widest east_asian_width lines) / 2 in
  Forall (fun line => dw line <= width) lines ->
  0 <= left_padding
  /\ _prepare_slide_content east_asian_width text width
     = map (fun line =>
              Py.repeat_char SPACE left_padding ++ line
              ++ Py.repeat_char SPACE (width - left_padding - dw line))
         lines.
Proof.
  intros lines left_padding Hfit.
  assert (0 <= width) as Hwidth.
  { pose proof (split_char_truthy NEWLINE text) as Hne. fold lines in Hne.
    destruct Hfit as [|l ls Hl _]; [done|].
    pose proof (display_width_nonneg east_asian_width l). lia. }
  assert (widest east_asian_width lines <= width) as Hwidest.
  { clear left_padding. induction Hfit as [|l ls Hl _ IH];
      unfold widest in *; cbn [foldr]; lia. }
  pose proof (widest_nonneg lines) as Hnonneg.
  assert (0 <= left_padding) as Hpad by (apply Z.div_pos; lia).
  split; [done|].
  unfold _prepare_slide_content. fold lines.
  rewrite max_content_width_widest, Z.max_r by done.
  assert ((if widest east_asian_width lines >=? width then 0
           else (width - widest east_asian_width lines) / 2) = left_padding)
    as ->.
  { destruct (Z.geb_spec (widest east_asian_width lines) width); [|done].
    subst left_padding.
    replace (width - widest east_asian_width lines) with 0 by lia. done. }
  apply map_ext_in. intros line Hin.
  pose proof (widest_bound lines line Hin) as Hline.
  pose proof (display_width_nonneg east_asian_width line) as Hline0.
  assert (left_padding + dw line <= width) as Hroom.
  { assert (2 * left_padding <= width - widest east_asian_width lines)
      by (apply Z.mul_div_le; lia). lia. }
  destruct (Z.gtb_spec (left_padding + dw line) width); [lia|].
  rewrite display_width_app, (display_width_narrow _ SPACE) by done.
  rewrite Z.max_r by done.
  destruct (Z.ltb_spec (left_padding + dw line) width).
  - replace (width - (left_padding + dw line))
      with (width - left_padding - dw line) by lia.
    by rewrite <- app_assoc.
  - replace (width - left_padding - dw line) with 0 by lia.
    unfold Py.repeat_char at 2. simpl. by rewrite app_nil_r.
Qed.

End MoreLayout.

(** Two lines of widths 4 and 1 on ten columns. *)
Lemma prepare_slide_content_centered_witness :
  0 <= (10 - widest east_asian_width_excerpt
               (Py.split_char NEWLINE [27979; 35797; 10; 97])) / 2
  /\ _prepare_slide_content east_asian_width_excerpt [27979; 35797; 10; 97] 10
     = map (fun line =>
              Py.repeat_char SPACE
                ((10 - widest east_asian_width_excerpt
                         (Py.split_char NEWLINE [27979; 35797; 10; 97])) / 2)
              ++ line
              ++ Py.repeat_char SPACE
                   (10 - (10 - widest east_asian_width_excerpt
                                 (Py.split_char NEWLINE [27979; 35797; 10; 97])) / 2
                    - get_display_width east_asian_width_excerpt line))
         (Py.split_char NEWLINE [27979; 35797; 10; 97]).
Proof.
  apply (prepare_slide_content_centered east_asian_width_excerpt eq_refl).
  vm_compute. repeat constructor; discriminate.
Defined.

(** ** More on the text wrapper *)

Section MoreWrap.

Lemma len_join_snoc (line : list str) (word : str) :
  Py.len (Py.join [SPACE] (line ++ [word]))
  = Py.len (Py.join [SPACE] line) + Py.len word
    + (if Py.truthy line then 1 else 0).
Proof.
  destruct line as [|w line]; [unfold Py.len; simpl; lia|].
  rewrite join_app by done. rewrite !len_app. cbn [Py.truthy Py.join].
  unfold Py.len. simpl. lia.
Qed.

(** The loop of [_wrap_text] keeps [current_length] equal to the length of
    the line being filled, which fits or is a single word. *)
Lemma wrap_loop_fits (width : Z) (all_words words lines current_line : list str)
    (current_length : Z) :
  (forall w, In w words -> In w all_words) ->
  Forall (fits_or_word width all_words) lines ->
  current_length = Py.len (Py.join [SPACE] current_line) ->
  (current_line = [] \/ fits_or_word width all_words (Py.join [SPACE] current_line)) ->
  let '(lines', rest) := wrap_loop width words lines current_line current_length in
  Forall (fits_or_word width all_words) lines'
  /\ (rest = [] \/ fits_or_word width all_words (Py.join [SPACE] rest))
  /\ (words <> [] \/ current_line <> [] -> rest <> []).
Proof.
  revert lines current_line current_length.
  induction words as [|word words IH];
    intros lines current_line current_length Hsub Hlines Hlen Hcur.
  - cbn [wrap_loop]. split; [done|]. split; [done|]. by intros [?|?].
  - cbn [wrap_loop].
    assert (In word all_words) as Hword by (apply Hsub; by left).
    assert (forall w, In w words -> In w all_words) as Hsub'
      by (intros w Hw; apply Hsub; by right).
    destruct (Z.leb_spec
                (current_length + Py.len word
                 + (if Py.truthy current_line then 1 else 0)) width) as [Hfit|_].
    + specialize (IH lines (current_line ++ [word])
                    (current_length + Py.len word
                     + (if Py.len (current_line ++ [word]) >? 1 then 1 else 0))
                    Hsub' Hlines).
      destruct (wrap_loop width words lines (current_line ++ [word]) _)
        as [lines' rest].
      assert ((if Py.len (current_line ++ [word]) >? 1 then 1 else 0)
              = (if Py.truthy current_line then 1 else 0)) as Hone.
      { destruct current_line as [|w current_line]; [done|].
        cbn [Py.truthy].
        destruct (Z.gtb_spec (Py.len ((w :: current_line) ++ [word])) 1)
          as [_|Hshort]; [done|].
        rewrite len_app in Hshort. unfold Py.len in Hshort. simpl in Hshort.
        lia. }
      destruct IH as (Hl & Hr & Hne).
      * rewrite len_join_snoc, Hone. lia.
      * right. left. rewrite len_join_snoc. lia.
      * split; [done|]. split; [done|]. intros _. apply Hne. right.
        by destruct current_line.
    + assert (Forall (fits_or_word width all_words)
                (if Py.truthy current_line
                 then lines ++ [Py.join [SPACE] current_line] else lines))
        as Hlines'.
      { destruct current_line as [|w current_line]; [done|].
        apply Forall_app; split; [done|]. constructor; [|done].
        by destruct Hcur. }
      specialize (IH _ [word] (Py.len word) Hsub' Hlines' eq_refl).
      destruct (wrap_loop width words _ [word] (Py.len word)) as [lines' rest].
      destruct IH as (Hl & Hr & Hne); [right; by right|].
      split; [done|]. split; [done|]. intros _. apply Hne. by right.
Qed.

(** The wrapper returns at least one line, and every line fits the width
    unless it is a single word longer than the width (a word is never
    split); a text without words gives one empty line. *)
Theorem wrap_text_lines_fit (text : str) (width : Z) :
  _wrap_text text width <> []
  /\ (Py.split_ws text = [] -> _wrap_text text width = [[]])
  /\ (Py.split_ws text <> [] ->
      Forall (fits_or_word width (Py.split_ws text)) (_wrap_text text width)).
Proof.
  unfold _wrap_text.
  pose proof (wrap_loop_fits width (Py.split_ws text) (Py.split_ws text) [] [] 0
                (fun w H => H) (List.Forall_nil _) eq_refl (or_introl eq_refl))
    as Hloop.
  destruct (wrap_loop width (Py.split_ws text) [] [] 0) as [lines rest] eqn:Hrun.
  destruct Hloop as (Hlines & Hrest & Hne).
  split; [|split].
  - by destruct (if Py.truthy rest then _ else lines).
  - intros Hnone. rewrite Hnone in Hrun. by injection Hrun as <- <-.
  - intros Hwords. destruct rest as [|w rest]; [by destruct Hne; [left|]|].
    cbn [Py.truthy]. rewrite truthy_app_r.
    apply Forall_app; split; [done|]. constructor; [|done]. by destruct Hrest.
Qed.

End MoreWrap.

(** A word longer than the width stands alone on its line. *)
Lemma wrap_text_lines_fit_witness :
  Forall (fits_or_word 3 (Py.split_ws (lit "ab abcdef c")))
    (_wrap_text (lit "ab abcdef c") 3).
Proof.
  apply (wrap_text_lines_fit (lit "ab abcdef c") 3). by vm_compute.
Defined.

(** ** More on the notes panel and the status bar *)

Section MorePanel.

Lemma len_repeat_char (c : codepoint) (n : Z) :
  Py.len (Py.repeat_char c n) = Z.max 0 n.
Proof. unfold Py.len, Py.repeat_char. rewrite length_replicate. lia. Qed.


(** The status bar is exactly [width] characters long, on any terminal of
    a non-negative width and whatever the title. *)
Theorem status_bar_length (self : Slideshow) (slide : Slide) (width : Z)
    (scrolls : bool) (total_lines visible_lines : Z) :
  Py.getitem (slides self) (current_index self) = Some slide ->
  0 <= width ->
  exists line,
    _render_status_bar self width scrolls total_lines visible_lines = Some line
    /\ Py.len line = width.
Proof.
  intros Hslide Hwidth. unfold _render_status_bar. rewrite Hslide.
  cbn [mbind option_bind].
  assert (forall status_line : str,
            Py.len (if Py.len status_line <? width
                    then status_line
                           ++ Py.repeat_char SPACE (width - Py.len status_line)
                    else Py.slice status_line 0 width) = width) as Hexact.
  { intros status_line. destruct (Z.ltb_spec (Py.len status_line) width).
    - rewrite len_app, len_repeat_char. lia.
    - unfold Py.slice, Py.slice_bound.
      destruct (Z.ltb_spec width 0); [lia|]. cbn [Z.ltb Z.compare].
      unfold Py.len in *. rewrite length_take, length_drop. lia. }
  destruct (_ <? 1); [destruct (_ >? 3)|]; eexists; (split; [reflexivity|]);
    apply Hexact.
Qed.

End MorePanel.


Lemma status_bar_length_witness :
  exists line,
    _render_status_bar noted_deck 20 false 1 5 = Some line
    /\ Py.len line = 20.
Proof.
  apply (status_bar_length noted_deck noted_slide 20 false 1 5);
    [reflexivity | lia].
Defined.

(** ** More on the frame composer *)

Section MoreRender.

Variable east_asian_width : codepoint -> EastAsianWidth.

Abbreviation dw := (get_display_width east_asian_width).
Abbreviation content_lines_of := (content_lines_of east_asian_width).

(** The frame of a render pass, written out. *)
Lemma render_slide_frame (self : Slideshow) (slide : Slide) (width height : Z) :
  Py.getitem (slides self) (current_index self) = Some slide ->
  let content_lines := content_lines_of slide width in
  let total := Py.len content_lines in
  let available := height - 1 - notes_panel_height_of self in
  let offset := clamped_offset self total available in
  let top := if total >? available then 0
             else Z.max 0 ((available - total) / 2) in
  let upper :=
    replicate (Py.range_len top) (Py.repeat_char SPACE width)
    ++ (if total >? available
        then Py.slice content_lines offset (offset + available)
        else content_lines) in
  exists panel status,
    _render_slide east_asian_width self width height
    = Some (set_scroll_offset self offset,
            mkFrame total available (total >? available) top
              (upper
               ++ replicate (Py.range_len (available - Py.len upper))
                    (Py.repeat_char SPACE width))
              panel status).
Proof.
  intros Hslide content_lines total available offset top upper.
  unfold _render_slide. rewrite Hslide. cbn [mbind option_bind].
  fold (content_lines_of slide width). fold content_lines. fold total.
  fold (notes_panel_height_of self). fold available.
  subst offset top upper. unfold clamped_offset.
  destruct (total >? available) eqn:Hscroll.
  - set (offset := Z.max 0 (Z.min (scroll_offset self) (total - available))).
    set (self' := set_scroll_offset self offset).
    assert (Py.getitem (slides self') (current_index self') = Some slide)
      as Hslide' by done.
    destruct (render_status_bar_some self' slide width true total available Hslide')
      as [line ->].
    destruct (render_notes_panel_some self' slide width
                (notes_panel_height_of self) Hslide') as [rows ->].
    cbn [scroll_offset self' set_scroll_offset show_notes].
    destruct (show_notes self);
      cbn [mbind option_bind fmap option_fmap option_map]; by eexists _, _.
  - set (self' := set_scroll_offset self 0).
    assert (Py.getitem (slides self') (current_index self') = Some slide)
      as Hslide' by done.
    destruct (render_status_bar_some self' slide width false total available Hslide')
      as [line ->].
    destruct (render_notes_panel_some self' slide width
                (notes_panel_height_of self) Hslide') as [rows ->].
    cbn [scroll_offset self' set_scroll_offset show_notes].
    destruct (show_notes self);
      cbn [mbind option_bind fmap option_fmap option_map]; by eexists _, _.
Qed.

(** A render pass that returns found the slide shown. *)
Lemma render_slide_some (self self' : Slideshow) (frame : Frame)
    (width height : Z) :
  _render_slide east_asian_width self width height = Some (self', frame) ->
  exists slide, Py.getitem (slides self) (current_index self) = Some slide.
Proof.
  unfold _render_slide.
  destruct (Py.getitem (slides self) (current_index self)) as [slide|];
    [by exists slide|done].
Qed.

(** Rendering again changes nothing: the state a render pass leaves is
    rendered to the same frame and left as it is. *)
Theorem render_slide_idempotent (self self' : Slideshow) (frame : Frame)
    (width height : Z) :
  _render_slide east_asian_width self width height = Some (self', frame) ->
  _render_slide east_asian_width self' width height = Some (self', frame).
Proof.
  intros Hrun. destruct (render_slide_some _ _ _ _ _ Hrun) as [slide Hslide].
  destruct (render_slide_frame self slide width height Hslide)
    as (panel & status & Hframe).
  rewrite Hframe in Hrun. injection Hrun as <- <-.
  set (total := Py.len (content_lines_of slide width)) in *.
  set (available := height - 1 - notes_panel_height_of self) in *.
  set (self' := set_scroll_offset self (clamped_offset self total available)).
  assert (clamped_offset self' total available
          = clamped_offset self total available) as Hsame.
  { unfold clamped_offset. subst self'. cbn [scroll_offset set_scroll_offset].
    unfold clamped_offset. destruct (Z.gtb_spec total available); lia. }
  assert (_render_slide east_asian_width self' width height
          = _render_slide east_asian_width self width height) as ->; [|done].
  unfold _render_slide. subst self'.
  cbn [slides current_index show_notes notes_height scroll_offset
       set_scroll_offset].
  rewrite Hslide. cbn [mbind option_bind].
  fold (content_lines_of slide width). fold total.
  fold (notes_panel_height_of self). fold available.
  unfold clamped_offset in *.
  destruct (Z.gtb_spec total available) as [Hscroll|Hstill]; [|done].
  cbn [slides current_index show_notes notes_height scroll_offset
       set_scroll_offset] in *.
  by rewrite Hsame.
Qed.

(** When the slide fits the available height it is shown whole and
    centred: the blank rows above are half of the free rows, rounded down, the
    blank rows below are the rest, at most one more; the scroll offset
    is 0. *)
Theorem render_vertical_centering (self self' : Slideshow) (frame : Frame)
    (slide : Slide) (width height : Z) :
  _render_slide east_asian_width self width height = Some (self', frame) ->
  Py.getitem (slides self) (current_index self) = Some slide ->
  total_content_height frame <= available_height frame ->
  let free := available_height frame - total_content_height frame in
  let blank := Py.repeat_char SPACE width in
  screen_lines frame
  = replicate (Z.to_nat (free / 2)) blank
    ++ content_lines_of slide width
    ++ replicate (Z.to_nat (free - free / 2)) blank
  /\ 0 <= (free - free / 2) - free / 2 <= 1
  /\ needs_scroll frame = false
  /\ scroll_offset self' = 0.
Proof.
  intros Hrun Hslide.
  destruct (render_slide_frame self slide width height Hslide)
    as (panel & status & Hframe).
  rewrite Hframe in Hrun. injection Hrun as <- <-.
  cbn [total_content_height available_height screen_lines needs_scroll
       scroll_offset set_scroll_offset].
  set (total := Py.len (content_lines_of slide width)).
  set (available := height - 1 - notes_panel_height_of self).
  intros Hfits. set (free := available - total). unfold clamped_offset.
  destruct (Z.gtb_spec total available) as [|_]; [lia|].
  assert (0 <= free) as Hfree by (subst free; lia).
  assert (0 <= free / 2) as Hhalf by (by apply Z.div_pos).
  assert (2 * (free / 2) <= free) as Hlow by (apply Z.mul_div_le; lia).
  assert (free < 2 * (free / 2) + 2) as Hhigh.
  { pose proof (Z.mod_pos_bound free 2 ltac:(lia)).
    pose proof (Z.div_mod free 2 ltac:(lia)). lia. }
  split; [|repeat split; lia].
  rewrite Z.max_r by done. unfold Py.range_len. rewrite <- app_assoc.
  do 3 f_equal. rewrite !len_app. fold total. unfold Py.len.
  rewrite length_replicate. unfold total, free, Py.len in *. lia.
Qed.

(** When the slide is taller than the available height, the screen shows
    the window of [available_height] consecutive content lines that starts at
    the clamped scroll offset. *)
Theorem render_scroll_window (self self' : Slideshow) (frame : Frame)
    (slide : Slide) (width height : Z) :
  _render_slide east_asian_width self width height = Some (self', frame) ->
  Py.getitem (slides self) (current_index self) = Some slide ->
  0 <= available_height frame < total_content_height frame ->
  needs_scroll frame = true
  /\ scroll_offset self'
     = Z.max 0 (Z.min (scroll_offset self)
                  (total_content_height frame - available_height frame))
  /\ screen_lines frame
     = take (Z.to_nat (available_height frame))
         (drop (Z.to_nat (scroll_offset self')) (content_lines_of slide width))
  /\ Py.len (screen_lines frame) = available_height frame.
Proof.
  intros Hrun Hslide.
  destruct (render_slide_frame self slide width height Hslide)
    as (panel & status & Hframe).
  rewrite Hframe in Hrun. injection Hrun as <- <-.
  cbn [total_content_height available_height screen_lines needs_scroll
       scroll_offset set_scroll_offset].
  set (content_lines := content_lines_of slide width).
  set (total := Py.len content_lines).
  set (available := height - 1 - notes_panel_height_of self).
  intros Htall. unfold clamped_offset.
  destruct (Z.gtb_spec total available) as [_|]; [|lia].
  set (offset := Z.max 0 (Z.min (scroll_offset self) (total - available))).
  assert (0 <= offset <= total - available) as Hoffset by lia.
  assert (Py.slice content_lines offset (offset + available)
          = take (Z.to_nat available) (drop (Z.to_nat offset) content_lines))
    as Hslice.
  { unfold Py.slice, Py.slice_bound. fold total.
    destruct (Z.ltb_spec offset 0); [lia|].
    destruct (Z.ltb_spec (offset + available) 0); [lia|].
    rewrite !Z.min_l by lia. do 2 f_equal. lia. }
  assert (Py.len (take (Z.to_nat available)
                    (drop (Z.to_nat offset) content_lines)) = available)
    as Hlen.
  { unfold Py.len. rewrite length_take, length_drop.
    unfold total, Py.len in *. lia. }
  change (Py.range_len 0) with 0%nat. cbn [replicate].
  rewrite !app_nil_l, Hslice, Hlen.
  replace (available - available) with 0 by lia.
  change (Py.range_len 0) with 0%nat. cbn [replicate]. rewrite app_nil_r.
  by repeat split.
Qed.

Hypothesis ellipsis_narrow : in_F_W (east_asian_width ELLIPSIS) = false.
Hypothesis space_narrow : in_F_W (east_asian_width SPACE) = false.

(** On a terminal of at least one column every row of the content region
    of a frame, blank or not, is exactly [width] columns wide. *)
Theorem render_rows_width (self self' : Slideshow) (frame : Frame)
    (width height : Z) :
  _render_slide east_asian_width self width height = Some (self', frame) ->
  1 <= width ->
  Forall (fun row => dw row = width) (screen_lines frame).
Proof.
  intros Hrun Hwidth.
  destruct (render_slide_some _ _ _ _ _ Hrun) as [slide Hslide].
  destruct (render_slide_frame self slide width height Hslide)
    as (panel & status & Hframe).
  rewrite Hframe in Hrun. injection Hrun as <- <-.
  cbn [screen_lines].
  assert (Forall (fun row => dw row = width) (content_lines_of slide width))
    as Hcontent by (by apply prepare_slide_content_width).
  assert (forall n, Forall (fun row => dw row = width)
                      (replicate n (Py.repeat_char SPACE width))) as Hblank.
  { intros n. apply Forall_replicate.
    rewrite (display_width_narrow _ SPACE) by done. lia. }
  repeat apply Forall_app_2; try apply Hblank.
  destruct (_ >? _); [|done].
  unfold Py.slice. by apply Forall_take, Forall_drop.
Qed.

End MoreRender.

(** The five-line slide on 80 by 24, and on a terminal four rows high
    after scrolling down. *)
Lemma render_vertical_centering_witness :
  exists self' frame,
    _render_slide east_asian_width_excerpt tall_deck 80 24 = Some (self', frame)
    /\ needs_scroll frame = false
    /\ scroll_offset self' = 0.
Proof.
  destruct (render_slide_frame east_asian_width_excerpt tall_deck
              (slide_of (Py.join [NEWLINE]
                 [lit "one"; lit "two"; lit "three"; lit "four"; lit "five"]))
              80 24 eq_refl) as (panel & status & Hframe).
  eexists _, _. split; [exact Hframe|].
  refine (proj2 (proj2 (render_vertical_centering east_asian_width_excerpt
                          tall_deck _ _ _ 80 24 Hframe eq_refl _))).
  vm_compute. discriminate.
Defined.

Lemma render_scroll_window_witness :
  exists self' frame,
    _render_slide east_asian_width_excerpt (scroll_down tall_deck 3) 80 4
      = Some (self', frame)
    /\ needs_scroll frame = true.
Proof.
  destruct (render_slide_frame east_asian_width_excerpt (scroll_down tall_deck 3)
              (slide_of (Py.join [NEWLINE]
                 [lit "one"; lit "two"; lit "three"; lit "four"; lit "five"]))
              80 4 eq_refl) as (panel & status & Hframe).
  eexists _, _. split; [exact Hframe|].
  refine (proj1 (render_scroll_window east_asian_width_excerpt
                   (scroll_down tall_deck 3) _ _ _ 80 4 Hframe eq_refl _)).
  vm_compute. split; [discriminate|reflexivity].
Defined.

Lemma render_rows_width_witness :
  exists self' frame,
    _render_slide east_asian_width_excerpt tall_deck 80 24 = Some (self', frame)
    /\ Forall (fun row => get_display_width east_asian_width_excerpt row = 80)
         (screen_lines frame).
Proof.
  destruct (render_slide_frame east_asian_width_excerpt tall_deck
              (slide_of (Py.join [NEWLINE]
                 [lit "one"; lit "two"; lit "three"; lit "four"; lit "five"]))
              80 24 eq_refl) as (panel & status & Hframe).
  eexists _, _. split; [exact Hframe|].
  apply (render_rows_width east_asian_width_excerpt eq_refl eq_refl
           tall_deck _ _ 80 24 Hframe). lia.
Defined.

Lemma render_slide_idempotent_witness :
  exists self' frame,
    _render_slide east_asian_width_excerpt (scroll_down tall_deck 3) 80 4
      = Some (self', frame)
    /\ _render_slide east_asian_width_excerpt self' 80 4 = Some (self', frame).
Proof.
  destruct (render_slide_frame east_asian_width_excerpt (scroll_down tall_deck 3)
              (slide_of (Py.join [NEWLINE]
                 [lit "one"; lit "two"; lit "three"; lit "four"; lit "five"]))
              80 4 eq_refl) as (panel & status & Hframe).
  eexists _, _. split; [exact Hframe|].
  exact (render_slide_idempotent east_asian_width_excerpt _ _ _ 80 4 Hframe).
Defined.

(** ** More on the navigator and the loader *)

Section MoreNavigator.

(** [prev_slide] mirrors [next_slide]: from a state whose index is not
    negative it moves to [max(current_index - 1, 0)], resets the scroll
    offset when the index moves and leaves it as it is on the first slide. *)
Theorem prev_slide_transition (self : Slideshow) :
  0 <= current_index self ->
  let self' := fst (prev_slide self) in
  current_index self' = Z.max (current_index self - 1) 0
  /\ scroll_offset self'
     = (if current_index self >? 0 then 0 else scroll_offset self)
  /\ snd (prev_slide self) = (current_index self >? 0)
  /\ slides self' = slides self
  /\ show_notes self' = show_notes self
  /\ notes_height self' = notes_height self.
Proof.
  intros Hindex self'. subst self'. unfold prev_slide.
  destruct (Z.gtb_spec (current_index self) 0);
    cbn [fst snd current_index scroll_offset slides show_notes notes_height
         set_scroll_offset set_current_index];
    repeat split; lia.
Qed.

(** The three moves keep the index inside the deck, whatever slide number
    is asked for, and report whether they moved. *)
Theorem navigation_keeps_index (self : Slideshow) (index : Z) :
  0 <= current_index self < Py.len (slides self) ->
  (0 <= current_index (fst (next_slide self)) < Py.len (slides self)
   /\ 0 <= current_index (fst (prev_slide self)) < Py.len (slides self)
   /\ 0 <= current_index (fst (goto_slide self index)) < Py.len (slides self))
  /\ (snd (goto_slide self index) = true <-> 1 <= index <= Py.len (slides self))
  /\ (snd (goto_slide self index) = true ->
      current_index (fst (goto_slide self index)) = index - 1
      /\ scroll_offset (fst (goto_slide self index)) = 0)
  /\ (snd (goto_slide self index) = false -> fst (goto_slide self index) = self).
Proof.
  intros Hindex. unfold next_slide, prev_slide, goto_slide.
  destruct (Z.ltb_spec (current_index self) (Py.len (slides self) - 1));
    destruct (Z.gtb_spec (current_index self) 0);
    destruct (Z.leb_spec 1 index);
    destruct (Z.leb_spec index (Py.len (slides self)));
    cbn [fst snd andb current_index scroll_offset slides set_scroll_offset
         set_current_index];
    repeat split; try done; try lia.
Qed.

(** Away from the ends of the deck [next_slide] and [prev_slide] undo each
    other on the index; the scroll offset is 0 afterwards. *)
Theorem next_prev_inverse (self : Slideshow) :
  0 <= current_index self < Py.len (slides self) - 1 ->
  current_index (fst (prev_slide (fst (next_slide self)))) = current_index self
  /\ current_index (fst (next_slide (fst (prev_slide (fst (next_slide self))))))
     = current_index self + 1
  /\ scroll_offset (fst (prev_slide (fst (next_slide self)))) = 0.
Proof.
  intros Hindex.
  assert (fst (next_slide self)
          = set_scroll_offset (set_current_index self (current_index self + 1)) 0)
    as ->.
  { unfold next_slide.
    by destruct (Z.ltb_spec (current_index self) (Py.len (slides self) - 1));
      [|lia]. }
  set (there := set_scroll_offset _ 0).
  assert (fst (prev_slide there)
          = set_scroll_offset (set_current_index there (current_index self)) 0)
    as ->.
  { unfold prev_slide. subst there.
    cbn [current_index set_scroll_offset set_current_index].
    destruct (Z.gtb_spec (current_index self + 1) 0); [|lia].
    cbn [fst]. do 2 f_equal. lia. }
  unfold next_slide. subst there.
  cbn [current_index scroll_offset slides set_scroll_offset set_current_index].
  destruct (Z.ltb_spec (current_index self) (Py.len (slides self) - 1)); [|lia].
  done.
Qed.


End MoreNavigator.

Lemma prev_slide_transition_witness :
  current_index (fst (prev_slide three_slide_deck)) = Z.max (0 - 1) 0
  /\ scroll_offset (fst (prev_slide three_slide_deck)) = 4.
Proof.
  assert (0 <= current_index three_slide_deck) as Hindex by (by vm_compute).
  destruct (prev_slide_transition three_slide_deck Hindex) as (Hc & Hs & _).
  split; [exact Hc | exact Hs].
Defined.

Lemma navigation_keeps_index_witness :
  snd (goto_slide three_slide_deck 3) = true
  /\ snd (goto_slide three_slide_deck 0) = false
  /\ current_index (fst (goto_slide three_slide_deck 3)) = 3 - 1.
Proof.
  assert (0 <= current_index three_slide_deck
          < Py.len (slides three_slide_deck)) as Hindex
    by (vm_compute; split; [discriminate|reflexivity]).
  destruct (navigation_keeps_index three_slide_deck 3 Hindex)
    as (_ & Hgo & Hat & _).
  assert (snd (goto_slide three_slide_deck 3) = true) as Hmoved
    by (apply Hgo; vm_compute; split; discriminate).
  split; [exact Hmoved|]. split; [reflexivity|]. exact (proj1 (Hat Hmoved)).
Defined.

Lemma next_prev_inverse_witness :
  current_index (fst (prev_slide (fst (next_slide three_slide_deck)))) = 0.
Proof.
  apply (next_prev_inverse three_slide_deck).
  vm_compute. split; [discriminate|reflexivity].
Defined.

(** ** The main loop *)

Section MoreSession.

Variable east_asian_width : codepoint -> EastAsianWidth.
Variable terminal : nat -> option (Z * Z).
Variable isdigit : codepoint -> bool.
Variable int : str -> option Z.

Abbreviation do_render := (render east_asian_width terminal).
Abbreviation do_index_loop := (index_loop terminal).
Abbreviation do_key_action := (key_action terminal isdigit int).
Abbreviation do_run_loop := (run_loop east_asian_width terminal isdigit int).
Abbreviation do_run := (run east_asian_width terminal isdigit int).

Ltac session_ok :=
  unfold session_ok, next_slide, prev_slide, goto_slide, scroll_down,
    scroll_up in *;
  repeat match goal with
         | |- context [if ?b then _ else _] => destruct b eqn:?
         end;
  cbn [fst snd current_index scroll_offset slides show_notes notes_height
       set_scroll_offset set_current_index set_show_notes set_notes_height]
    in *;
  repeat split; try done; try lia.

(** A render pass on a session in order returns a session in order. *)
Lemma render_ok (w : World) (self : Slideshow) :
  session_ok self ->
  exists w' self',
    do_render w self = Some (w', self')
    /\ session_ok self'
    /\ slides self' = slides self.
Proof.
  intros (Hindex & Hscroll & Hnotes). unfold render, _get_terminal_size.
  destruct (getitem_in_range (slides self) (current_index self) Hindex)
    as [slide Hslide].
  set (size := match terminal (clock w) with Some s => s | None => (80, 24) end).
  destruct size as [width height].
  destruct (render_slide_run east_asian_width self slide width height Hslide)
    as (frame & -> & _).
  cbn [mbind option_bind]. eexists _, _. split; [reflexivity|].
  unfold clamped_offset. session_ok.
Qed.

(** The index screen leaves the session in order, whatever is typed. *)
Lemma index_loop_ok (fuel : nat) (w : World) (self : Slideshow) (selected : Z) :
  session_ok self ->
  0 <= selected < Py.len (slides self) ->
  session_ok (snd (do_index_loop fuel w self selected))
  /\ slides (snd (do_index_loop fuel w self selected)) = slides self.
Proof.
  intros Hok. revert w selected.
  induction fuel as [|fuel IH]; intros w selected Hselected; [done|].
  cbn [index_loop]. destruct (_get_keypress w) as [key2 w'].
  repeat match goal with
         | |- context [if PyStr.in_tuple ?k ?ks then _ else _] =>
             destruct (PyStr.in_tuple k ks)
         end;
    try (apply IH; lia); cbn [snd]; [|done].
  clear IH. split; session_ok.
Qed.

(** Whatever the key, the branch taken hands on a session in order, over
    the same deck, and raises nothing but what [int] raises. *)
Lemma key_action_ok (fuel : nat) (key : str) (w : World) (self : Slideshow) :
  session_ok self ->
  session_ok (action_session (do_key_action fuel key w self))
  /\ slides (action_session (do_key_action fuel key w self)) = slides self
  /\ (forall w' self',
        do_key_action fuel key w self <> Raise IndexError w' self').
Proof.
  intros Hok. unfold key_action.
  repeat match goal with
         | |- context [if PyStr.in_tuple ?k ?ks then _ else _] =>
             destruct (PyStr.in_tuple k ks)
         | |- context [if PyStr.eq ?k ?c then _ else _] =>
             destruct (PyStr.eq k c)
         | |- context [if PyStr.eq ?k ?c || PyStr.eq ?k ?d then _ else _] =>
             destruct (PyStr.eq k c || PyStr.eq k d)
         end;
    cbn [action_session].
  all: try solve [split; [|split]; [session_ok | session_ok | done]].
  all: try solve
         [destruct (show_notes self); cbn [action_session];
          (split; [|split]; [session_ok | session_ok | done])].
  all: try solve
         [destruct (_get_keypress (show_help terminal w)) as [? w'];
          cbv iota beta; cbn [action_session]; split; [done|]; split; done].
  all: try solve
         [pose proof (index_loop_ok fuel
                        (show_index terminal w self (current_index self))
                        self (current_index self) Hok (proj1 Hok))
            as [Hok' Hsame];
          destruct (do_index_loop fuel _ self (current_index self))
            as [[[|] w'] self'];
          cbn [action_session snd] in *; (split; [done|]; split; done)].
  all: destruct (_get_number_input isdigit int (lit "Go to slide: ") w)
         as [[e|[num|]] w'] eqn:Hnum; cbn [action_session].
  all: try solve [split; [|split]; [session_ok | session_ok | done]].
  all: split; [done|]; split; [done|]; intros w'' self'' [= -> _ _].
  all: unfold _get_number_input in Hnum.
  all: destruct (number_loop isdigit (stdin w) [] _) as [[[num_str|] ?] ?];
         [|done].
  all: destruct (Py.truthy num_str); [|done]; by destruct (int num_str).
Qed.

(** The main loop keeps the session in order, whatever is typed and
    however the terminal is resized: the index stays inside the deck, the
    scroll offset is not negative, the notes panel stays between 2 and 20
    rows and the deck is the same; it never fails with IndexError, and so
    it raises only when [int] rejects the number typed after [g]. *)
Theorem run_loop_safe (fuel : nat) (w : World) (self : Slideshow) :
  session_ok self ->
  let '(outcome, w', self') := do_run_loop fuel w self in
  session_ok self'
  /\ slides self' = slides self
  /\ outcome <> Raised IndexError
  /\ outcome <> NoSlides.
Proof.
  revert w self. induction fuel as [|fuel IH]; intros w self Hok; [done|].
  cbn [run_loop]. destruct (_get_keypress w) as [key w1].
  destruct (key_action_ok fuel key w1 self Hok) as (Hok' & Hsame & Hraise).
  destruct (do_key_action fuel key w1 self) as [w2 s2|w2 s2|w2 s2|e w2 s2|w2 s2];
    cbn [action_session] in *.
  - destruct (render_ok w2 s2 Hok') as (w3 & s3 & -> & Hok3 & Hsame3).
    specialize (IH w3 s3 Hok3). destruct (do_run_loop fuel w3 s3) as [[o w4] s4].
    destruct IH as (? & -> & ? & ?). by rewrite Hsame3.
  - specialize (IH w2 s2 Hok'). destruct (do_run_loop fuel w2 s2) as [[o w4] s4].
    destruct IH as (? & -> & ? & ?). done.
  - done.
  - split; [done|]. split; [done|]. split; [|done].
    intros [= ->]. by apply (Hraise w2 s2).
  - done.
Qed.


(** *** Keys *)

(** [_get_keypress] reads one character, or up to three after an escape:
    the arrow sequences give the arrow names; after any other escape the
    characters read with it are used up, so that an ESC typed before another
    key swallows that key. *)
Theorem get_keypress_decodes (w : World) (rest : list codepoint) :
  (forall ch, ch <> ESCAPE ->
     _get_keypress (with_stdin w (ch :: rest)) = ([ch], with_stdin w rest))
  /\ _get_keypress (with_stdin w []) = ([], with_stdin w [])
  /\ _get_keypress (with_stdin w (ESCAPE :: 91 :: 65 :: rest))
     = (KEY_UP, with_stdin w rest)
  /\ _get_keypress (with_stdin w (ESCAPE :: 91 :: 66 :: rest))
     = (KEY_DOWN, with_stdin w rest)
  /\ _get_keypress (with_stdin w (ESCAPE :: 91 :: 67 :: rest))
     = (KEY_RIGHT, with_stdin w rest)
  /\ _get_keypress (with_stdin w (ESCAPE :: 91 :: 68 :: rest))
     = (KEY_LEFT, with_stdin w rest)
  /\ (forall ch, ch <> 91 ->
        _get_keypress (with_stdin w (ESCAPE :: ch :: rest))
        = (KEY_ESC, with_stdin w rest))
  /\ (forall ch, ch <> 65 -> ch <> 66 -> ch <> 67 -> ch <> 68 ->
        _get_keypress (with_stdin w (ESCAPE :: 91 :: ch :: rest))
        = (KEY_ESC, with_stdin w rest)).
Proof.
  unfold _get_keypress, read1, with_stdin. cbn [stdin clock screens PyStr.eq].
  repeat split; try done.
  - intros ch Hch. apply Z.eqb_neq in Hch. change ESCAPE with 27 in *.
    by rewrite Hch.
  - intros ch Hch. apply Z.eqb_neq in Hch. cbn [lit PyStr.eq].
    change (Z.of_N (N_of_ascii "[")) with 91. by rewrite Hch.
  - intros ch HA HB HC HD.
    apply Z.eqb_neq in HA, HB, HC, HD.
    change (lit "A") with [65]. change (lit "B") with [66].
    change (lit "C") with [67]. change (lit "D") with [68].
    cbn [PyStr.eq]. by rewrite HA, HB, HC, HD.
Qed.

(** *** Number input *)

Lemma number_loop_digits (digits rest : list codepoint) (num_str printed : str) :
  Forall (plain_digit isdigit) digits ->
  number_loop isdigit (digits ++ rest) num_str printed
  = number_loop isdigit rest (num_str ++ digits) (printed ++ digits).
Proof.
  intros Hdigits. revert num_str printed.
  induction Hdigits as [|ch digits (Hd & H13 & H10 & H127 & H27) _ IH];
    intros num_str printed.
  - by rewrite !app_nil_r.
  - cbn [app number_loop].
    apply Z.eqb_neq in H13, H10, H127, H27. rewrite H13, H10, H127, H27, Hd.
    cbn [orb]. rewrite IH, <- !app_assoc. done.
Qed.

Lemma number_input_read (prompt : str) (w : World)
    (digits rest : list codepoint) :
  Forall (plain_digit isdigit) digits ->
  let result := _get_number_input isdigit int prompt
                  (with_stdin w (digits ++ 13 :: rest)) in
  fst result
  = match digits with
    | [] => inr None
    | _ => match int digits with
           | Some n => inr (Some n)
           | None => inl ValueError
           end
    end
  /\ stdin (snd result) = rest.
Proof.
  intros Hdigits result. subst result. unfold _get_number_input, with_stdin.
  cbn [stdin]. rewrite number_loop_digits by done. cbn [number_loop].
  change (13 =? 13) with true. cbn [orb app].
  destruct digits as [|d digits]; [done|]. cbn [Py.truthy].
  by destruct (int (d :: digits)).
Qed.

(** Digits and Enter: [_get_number_input] returns what [int] makes of the
    digits typed, or nothing when none was typed, and leaves what follows
    Enter unread. *)
Theorem number_input_enter (prompt : str) (w : World)
    (digits rest : list codepoint) :
  Forall (plain_digit isdigit) digits ->
  let result := _get_number_input isdigit int prompt
                  (with_stdin w (digits ++ 13 :: rest)) in
  fst result
  = match digits with
    | [] => inr None
    | _ => match int digits with
           | Some n => inr (Some n)
           | None => inl ValueError
           end
    end
  /\ stdin (snd result) = rest.
Proof. intros. by apply number_input_read. Qed.

(** Escape cancels: whatever was typed before it, the result is nothing
    and the next character read is the one after the escape. *)
Theorem number_input_escape (prompt : str) (w : World)
    (typed rest : list codepoint) :
  Forall (fun ch => ch <> 13 /\ ch <> 10 /\ ch <> ESCAPE) typed ->
  let result := _get_number_input isdigit int prompt
                  (with_stdin w (typed ++ ESCAPE :: rest)) in
  fst result = inr None /\ stdin (snd result) = rest.
Proof.
  intros Htyped result. subst result. unfold _get_number_input, with_stdin.
  cbn [stdin].
  assert (forall num_str printed, exists printed',
            number_loop isdigit (typed ++ ESCAPE :: rest) num_str printed
            = (None, rest, printed')) as Hloop.
  { induction Htyped as [|ch typed (H13 & H10 & H27) _ IH];
      intros num_str printed.
    - cbn [app number_loop]. by eexists.
    - cbn [app number_loop]. apply Z.eqb_neq in H13, H10, H27.
      rewrite H13, H10, H27. cbn [orb].
      destruct (ch =? 127); [destruct (Py.truthy num_str)|destruct (isdigit ch)];
        apply IH. }
  destruct (Hloop [] ([NEWLINE] ++ prompt)) as [printed' ->]. done.
Qed.

Lemma slice_drop_last {A} (l : list A) (x : A) : Py.slice (l ++ [x]) 0 (-1) = l.
Proof.
  unfold Py.slice, Py.slice_bound. cbn [Z.ltb Z.compare].
  rewrite len_app. change (Py.len [x]) with 1.
  assert (0 <= Py.len l) as Hlen by (unfold Py.len; lia).
  rewrite Z.max_r, Z.min_l by lia.
  replace (-1 + (Py.len l + 1) - 0) with (Py.len l) by lia.
  unfold Py.len. rewrite Nat2Z.id. change (Z.to_nat 0) with 0%nat.
  rewrite drop_0. by rewrite take_app_length.
Qed.

(** What the loop returns and leaves unread does not depend on what it
    has printed. *)
Lemma number_loop_printed (input : list codepoint) (num_str printed printed' : str) :
  fst (number_loop isdigit input num_str printed)
  = fst (number_loop isdigit input num_str printed').
Proof.
  revert num_str printed printed'.
  induction input as [|ch input IH]; intros num_str printed printed'; [done|].
  cbn [number_loop].
  repeat match goal with
         | |- context [if ?b then _ else _] => destruct b
         end; try done; apply IH.
Qed.

(** Backspace takes back the last digit: a digit and a backspace typed
    before the input is ended give the same number as if neither had been
    typed. *)
Theorem number_input_backspace (prompt : str) (w : World)
    (before after : list codepoint) (digit : codepoint) :
  Forall (fun ch => ch <> 13 /\ ch <> 10 /\ ch <> ESCAPE) before ->
  plain_digit isdigit digit ->
  let typed := _get_number_input isdigit int prompt
                 (with_stdin w (before ++ digit :: 127 :: after)) in
  let plain := _get_number_input isdigit int prompt
                 (with_stdin w (before ++ after)) in
  fst typed = fst plain /\ stdin (snd typed) = stdin (snd plain).
Proof.
  intros Hbefore (Hd & H13 & H10 & H127 & H27) typed plain. subst typed plain.
  unfold _get_number_input, with_stdin. cbn [stdin].
  assert (forall num_str printed,
            fst (number_loop isdigit (before ++ digit :: 127 :: after)
                   num_str printed)
            = fst (number_loop isdigit (before ++ after) num_str printed))
    as Hsame.
  { induction Hbefore as [|ch before (B13 & B10 & B27) _ IH];
      intros num_str printed.
    - cbn [app number_loop].
      apply Z.eqb_neq in H13, H10, H127, H27. rewrite H13, H10, H127, H27, Hd.
      cbn [orb]. change (127 =? 13) with false. change (127 =? 10) with false.
      change (127 =? 127) with true. cbn [orb].
      rewrite truthy_app_r, slice_drop_last. apply number_loop_printed.
    - cbn [app number_loop]. apply Z.eqb_neq in B13, B10, B27.
      rewrite B13, B10, B27. cbn [orb].
      repeat match goal with
             | |- context [if ?b then _ else _] => destruct b
             end; rewrite !IH; apply number_loop_printed. }
  specialize (Hsame [] ([NEWLINE] ++ prompt)).
  destruct (number_loop isdigit (before ++ digit :: 127 :: after) [] _)
    as [[typed input] printed].
  destruct (number_loop isdigit (before ++ after) [] _)
    as [[typed' input'] printed'].
  cbn [fst snd] in *. injection Hsame as <- <-.
  destruct typed as [num_str|]; [|done].
  destruct (Py.truthy num_str); [|done]. by destruct (int num_str).
Qed.

(** *** Turns of the loop *)

(** Evaluate the comparisons of a known key with the keys of the source. *)
Ltac eval_keys :=
  repeat match goal with
         | |- context [PyStr.in_tuple ?k ?ks] =>
             let b := eval vm_compute in (PyStr.in_tuple k ks) in
             change (PyStr.in_tuple k ks) with b
         | |- context [PyStr.eq ?k ?c] =>
             let b := eval vm_compute in (PyStr.eq k c) in
             change (PyStr.eq k c) with b
         end;
  cbn [orb].

Lemma keypress_plain (w : World) (ch : codepoint) (rest : list codepoint) :
  stdin w = ch :: rest -> ch <> ESCAPE ->
  _get_keypress w = ([ch], with_stdin w rest).
Proof.
  intros Hstdin Hch. unfold _get_keypress, read1. rewrite Hstdin.
  cbn [PyStr.eq]. apply Z.eqb_neq in Hch. by rewrite Hch.
Qed.

Lemma keypress_escape (w : World) (ch : codepoint) (rest : list codepoint) :
  ch <> 91 ->
  _get_keypress (with_stdin w (ESCAPE :: ch :: rest)) = (KEY_ESC, with_stdin w rest).
Proof.
  intros Hch. unfold _get_keypress, read1, with_stdin.
  cbn [stdin clock screens PyStr.eq lit]. apply Z.eqb_neq in Hch.
  change (Z.of_N (N_of_ascii "[")) with 91. by rewrite Hch.
Qed.

(** [g], a number and Enter: the turn goes to that slide, when there is
    one, and ends in a redraw; what was typed after Enter is still to be
    read. *)
Theorem turn_goto (fuel : nat) (w : World) (self : Slideshow)
    (digits rest : list codepoint) (n : Z) :
  Forall (plain_digit isdigit) digits ->
  digits <> [] ->
  int digits = Some n ->
  exists w',
    turn terminal isdigit int fuel (with_stdin w (103 :: digits ++ 13 :: rest)) self
    = Redraw w' (fst (goto_slide self n))
    /\ stdin w' = rest.
Proof.
  intros Hdigits Hsome Hint. unfold turn.
  rewrite (keypress_plain _ 103 (digits ++ 13 :: rest)) by done.
  unfold key_action. eval_keys.
  pose proof (number_input_read (lit "Go to slide: ") w digits rest Hdigits)
    as [Hresult Hrest].
  unfold with_stdin in *. cbn [stdin clock screens] in *.
  destruct (_get_number_input isdigit int (lit "Go to slide: ") _)
    as [result w'].
  cbn [fst snd] in *. subst result. destruct digits; [done|]. rewrite Hint.
  by exists w'.
Qed.

(** [g] and a number that [str.isdigit] lets through but [int] rejects:
    the exception of [int] leaves the loop, with the session as it was. *)
Theorem run_loop_goto_raises (fuel : nat) (w : World) (self : Slideshow)
    (digits rest : list codepoint) :
  Forall (plain_digit isdigit) digits ->
  digits <> [] ->
  int digits = None ->
  exists w',
    do_run_loop (S fuel) (with_stdin w (103 :: digits ++ 13 :: rest)) self
    = (Raised ValueError, w', self)
    /\ stdin w' = rest.
Proof.
  intros Hdigits Hsome Hint. cbn [run_loop].
  rewrite (keypress_plain _ 103 (digits ++ 13 :: rest)) by done.
  unfold key_action. eval_keys.
  pose proof (number_input_read (lit "Go to slide: ") w digits rest Hdigits)
    as [Hresult Hrest].
  unfold with_stdin in *. cbn [stdin clock screens] in *.
  destruct (_get_number_input isdigit int (lit "Go to slide: ") _)
    as [result w'].
  cbn [fst snd] in *. subst result. destruct digits; [done|]. rewrite Hint.
  by exists w'.
Qed.

Lemma stdin_show_index (w : World) (self : Slideshow) (selected : Z) :
  stdin (show_index terminal w self selected) = stdin w.
Proof.
  unfold show_index, _get_terminal_size.
  by destruct (terminal (clock w)) as [[? ?]|].
Qed.

(** The index screen with [j] pressed [k] times: the selection moves down
    [k] rows and stops at the last slide. *)
Lemma index_loop_down (k fuel : nat) (w : World) (self : Slideshow)
    (selected : Z) (tail : list codepoint) :
  (k < fuel)%nat ->
  selected <= Py.len (slides self) - 1 ->
  stdin w = replicate k 106 ++ tail ->
  exists w',
    do_index_loop fuel w self selected
    = do_index_loop (fuel - k) w' self
        (Z.min (Py.len (slides self) - 1) (selected + Z.of_nat k))
    /\ stdin w' = tail.
Proof.
  revert fuel w selected. induction k as [|k IH];
    intros fuel w selected Hfuel Hselected Hstdin.
  - exists w. change (Z.of_nat 0) with 0.
    rewrite Nat.sub_0_r, Z.add_0_r, Z.min_r by lia. by split.
  - destruct fuel as [|fuel]; [lia|]. cbn [index_loop].
    cbn [replicate app] in Hstdin.
    rewrite (keypress_plain w 106 _ Hstdin) by done. eval_keys.
    destruct (IH fuel
                (show_index terminal (with_stdin w (replicate k 106 ++ tail)) self
                   (Z.min (Py.len (slides self) - 1) (selected + 1)))
                (Z.min (Py.len (slides self) - 1) (selected + 1)))
      as (w' & -> & Hrest); [lia|lia|by rewrite stdin_show_index|].
    exists w'. split; [|done]. cbn [Nat.sub]. f_equal. lia.
Qed.

(** [i], then [j] pressed [k] times, then Enter: the session moves [k]
    slides down, to the last slide at most, with the scroll offset at 0. *)
Theorem turn_index_select (k fuel : nat) (w : World) (self : Slideshow)
    (rest : list codepoint) :
  session_ok self ->
  (k < fuel)%nat ->
  exists w' self',
    turn terminal isdigit int fuel
      (with_stdin w (105 :: replicate k 106 ++ 13 :: rest)) self
    = Redraw w' self'
    /\ current_index self'
       = Z.min (Py.len (slides self) - 1) (current_index self + Z.of_nat k)
    /\ scroll_offset self' = 0
    /\ slides self' = slides self
    /\ stdin w' = rest.
Proof.
  intros (Hindex & _) Hfuel. unfold turn.
  rewrite (keypress_plain _ 105 (replicate k 106 ++ 13 :: rest)) by done.
  unfold key_action. eval_keys.
  destruct (index_loop_down k fuel
              (show_index terminal
                 (with_stdin (with_stdin w (105 :: replicate k 106 ++ 13 :: rest))
                    (replicate k 106 ++ 13 :: rest))
                 self (current_index self))
              self (current_index self) (13 :: rest))
    as (w1 & -> & Hrest); [done|lia|by rewrite stdin_show_index|].
  destruct (fuel - k)%nat as [|left] eqn:Hleft; [lia|]. cbn [index_loop].
  rewrite (keypress_plain w1 13 rest Hrest) by done. eval_keys.
  eexists _, _. split; [reflexivity|].
  set (selected := Z.min _ _).
  unfold goto_slide.
  destruct (Z.leb_spec 1 (selected + 1)); [|lia].
  destruct (Z.leb_spec (selected + 1) (Py.len (slides self))); [|lia].
  cbn [andb fst current_index scroll_offset slides set_scroll_offset
       set_current_index with_stdin stdin].
  repeat split; lia.
Qed.

(** [i], then [j] pressed [k] times, then [q]: the index screen is left
    with the session as it was. *)
Theorem turn_index_cancel (k fuel : nat) (w : World) (self : Slideshow)
    (rest : list codepoint) :
  session_ok self ->
  (k < fuel)%nat ->
  exists w',
    turn terminal isdigit int fuel
      (with_stdin w (105 :: replicate k 106 ++ 113 :: rest)) self
    = Redraw w' self
    /\ stdin w' = rest.
Proof.
  intros (Hindex & _) Hfuel. unfold turn.
  rewrite (keypress_plain _ 105 (replicate k 106 ++ 113 :: rest)) by done.
  unfold key_action. eval_keys.
  destruct (index_loop_down k fuel
              (show_index terminal
                 (with_stdin (with_stdin w (105 :: replicate k 106 ++ 113 :: rest))
                    (replicate k 106 ++ 113 :: rest))
                 self (current_index self))
              self (current_index self) (113 :: rest))
    as (w1 & -> & Hrest); [done|lia|by rewrite stdin_show_index|].
  destruct (fuel - k)%nat as [|left] eqn:Hleft; [lia|]. cbn [index_loop].
  rewrite (keypress_plain w1 113 rest Hrest) by done. eval_keys.
  by eexists.
Qed.

(** The quit keys [q], [x] and Ctrl-C, and an escape typed before any
    character but [[]: the loop ends at once; nothing is drawn and the
    session is as it was. *)
Theorem run_loop_quit (fuel : nat) (w : World) (self : Slideshow)
    (ch : codepoint) (rest : list codepoint) :
  (ch = 113 \/ ch = 120 \/ ch = 3 ->
   do_run_loop (S fuel) (with_stdin w (ch :: rest)) self
   = (Quit, with_stdin w rest, self))
  /\ (ch <> 91 ->
      do_run_loop (S fuel) (with_stdin w (ESCAPE :: ch :: rest)) self
      = (Quit, with_stdin w rest, self)).
Proof.
  split.
  - intros Hch. cbn [run_loop].
    assert (ch <> ESCAPE) as Hplain by (by destruct Hch as [-> | [-> | ->]]).
    rewrite (keypress_plain _ ch rest) by done.
    unfold key_action. by destruct Hch as [-> | [-> | ->]]; eval_keys.
  - intros Hch. cbn [run_loop].
    rewrite (keypress_escape w ch rest) by done.
    unfold key_action. by eval_keys.
Qed.

(** *** The index screen *)

(** The index screen has four rows of heading, one row for each slide in
    the order of the deck, and three rows of footing; the row of a slide is
    in inverse video exactly when the slide is the selected one, and that
    row then spans the width of the terminal. *)
Theorem render_index_rows (self : Slideshow) (selected_index : option Z)
    (width : Z) :
  let highlight := match selected_index with
                   | Some selected => selected
                   | None => current_index self
                   end in
  let rows := _render_index self selected_index width in
  length rows = (length (slides self) + 7)%nat
  /\ (forall i slide,
        slides self !! i = Some slide ->
        exists row,
          rows !! (4 + i)%nat = Some row
          /\ (Py.startswith ([ESCAPE] ++ lit "[7m") row = true
              <-> Z.of_nat i = highlight)
          /\ (Z.of_nat i = highlight -> width + 8 <= Py.len row)).
Proof.
  intros highlight rows. subst rows. unfold _render_index. fold highlight.
  split.
  - rewrite !length_app, length_imap. cbn [length]. lia.
  - intros i slide Hslide.
    exists (index_row highlight width i slide). split; [|split].
    + cbn [app]. change (4 + i)%nat with (S (S (S (S i)))).
      change ((?a :: ?b :: ?c :: ?d :: ?l) !! S (S (S (S i)))) with (l !! i).
      rewrite lookup_app_l by (rewrite length_imap; by apply lookup_lt_Some in Hslide).
      by rewrite list_lookup_imap, Hslide.
    + unfold index_row. destruct (Z.eqb_spec (Z.of_nat i) highlight); [done|].
      split; [|done]. by vm_compute.
    + intros Hi. unfold index_row. apply Z.eqb_eq in Hi. rewrite Hi.
      rewrite !len_app, len_repeat_char. unfold Py.len. cbn [length lit].
      lia.
Qed.

End MoreSession.

(** *** Concrete sessions

    Three slides on a terminal of 80 by 24, ASCII digits, and the keys
    typed one after the other. *)

Lemma three_slide_deck_ok : session_ok three_slide_deck.
Proof. unfold session_ok. vm_compute. repeat split; discriminate. Defined.

Lemma run_loop_safe_witness :
  let '(outcome, w', self') :=
    run_loop east_asian_width_excerpt terminal_80_24 ascii_isdigit ascii_int 20
      (keyboard (lit "jjns+g3" ++ [13] ++ lit "il"))
      three_slide_deck in
  session_ok self'
  /\ slides self' = slides three_slide_deck
  /\ outcome <> Raised IndexError
  /\ outcome <> NoSlides.
Proof.
  exact (run_loop_safe east_asian_width_excerpt terminal_80_24 ascii_isdigit
           ascii_int 20 (keyboard (lit "jjns+g3" ++ [13] ++ lit "il"))
           three_slide_deck three_slide_deck_ok).
Defined.


Lemma plain_digits_42 : Forall (plain_digit ascii_isdigit) (lit "42").
Proof. repeat constructor; discriminate. Defined.

Lemma number_input_enter_witness :
  fst (_get_number_input ascii_isdigit ascii_int (lit "Go to slide: ")
         (with_stdin (keyboard []) (lit "42" ++ 13 :: lit "q")))
  = inr (Some 42)
  /\ stdin (snd (_get_number_input ascii_isdigit ascii_int (lit "Go to slide: ")
                   (with_stdin (keyboard []) (lit "42" ++ 13 :: lit "q"))))
     = lit "q".
Proof.
  exact (number_input_enter ascii_isdigit ascii_int (lit "Go to slide: ")
           (keyboard []) (lit "42") (lit "q") plain_digits_42).
Defined.

Lemma number_input_escape_witness :
  fst (_get_number_input ascii_isdigit ascii_int (lit "Go to slide: ")
         (with_stdin (keyboard []) (lit "42" ++ ESCAPE :: lit "q")))
  = inr None.
Proof.
  apply (number_input_escape ascii_isdigit ascii_int (lit "Go to slide: ")
           (keyboard []) (lit "42") (lit "q")).
  repeat constructor; discriminate.
Defined.

Lemma number_input_backspace_witness :
  fst (_get_number_input ascii_isdigit ascii_int (lit "Go to slide: ")
         (with_stdin (keyboard []) (lit "4" ++ 50 :: 127 :: [51; 13])))
  = fst (_get_number_input ascii_isdigit ascii_int (lit "Go to slide: ")
           (with_stdin (keyboard []) (lit "4" ++ [51; 13]))).
Proof.
  apply (number_input_backspace ascii_isdigit ascii_int (lit "Go to slide: ")
           (keyboard []) (lit "4") [51; 13] 50).
  - repeat constructor; discriminate.
  - repeat constructor; discriminate.
Defined.

Lemma turn_goto_witness :
  exists w',
    turn terminal_80_24 ascii_isdigit ascii_int 5
      (with_stdin (keyboard []) (103 :: lit "3" ++ 13 :: lit "q"))
      three_slide_deck
    = Redraw w' (fst (goto_slide three_slide_deck 3))
    /\ stdin w' = lit "q".
Proof.
  apply (turn_goto terminal_80_24 ascii_isdigit ascii_int 5 (keyboard [])
           three_slide_deck (lit "3") (lit "q") 3).
  - repeat constructor; discriminate.
  - discriminate.
  - reflexivity.
Defined.

Lemma turn_index_select_witness :
  exists w' self',
    turn terminal_80_24 ascii_isdigit ascii_int 9
      (with_stdin (keyboard []) (105 :: replicate 5 106 ++ 13 :: lit "q"))
      three_slide_deck
    = Redraw w' self'
    /\ current_index self'
       = Z.min (Py.len (slides three_slide_deck) - 1)
           (current_index three_slide_deck + Z.of_nat 5)
    /\ scroll_offset self' = 0
    /\ slides self' = slides three_slide_deck
    /\ stdin w' = lit "q".
Proof.
  apply (turn_index_select terminal_80_24 ascii_isdigit ascii_int 5 9
           (keyboard []) three_slide_deck (lit "q") three_slide_deck_ok).
  lia.
Defined.

Lemma turn_index_cancel_witness :
  exists w',
    turn terminal_80_24 ascii_isdigit ascii_int 9
      (with_stdin (keyboard []) (105 :: replicate 2 106 ++ 113 :: lit "n"))
      three_slide_deck
    = Redraw w' three_slide_deck
    /\ stdin w' = lit "n".
Proof.
  apply (turn_index_cancel terminal_80_24 ascii_isdigit ascii_int 2 9
           (keyboard []) three_slide_deck (lit "n") three_slide_deck_ok).
  lia.
Defined.

Lemma run_loop_quit_witness :
  run_loop east_asian_width_excerpt terminal_80_24 ascii_isdigit ascii_int 3
    (with_stdin (keyboard []) (ESCAPE :: 113 :: lit "n")) three_slide_deck
  = (Quit, with_stdin (keyboard []) (lit "n"), three_slide_deck).
Proof.
  apply (run_loop_quit east_asian_width_excerpt terminal_80_24 ascii_isdigit
           ascii_int 2 (keyboard []) three_slide_deck 113 (lit "n")).
  discriminate.
Defined.

Lemma get_keypress_decodes_witness :
  _get_keypress (with_stdin (keyboard []) (ESCAPE :: 113 :: lit "n"))
  = (KEY_ESC, with_stdin (keyboard []) (lit "n")).
Proof.
  apply (get_keypress_decodes (keyboard []) (lit "n")). discriminate.
Defined.

Lemma run_loop_goto_raises_witness :
  exists w',
    run_loop east_asian_width_excerpt terminal_80_24 isdigit_excerpt ascii_int 3
      (with_stdin (keyboard []) (103 :: [178] ++ 13 :: lit "q"))
      three_slide_deck
    = (Raised ValueError, w', three_slide_deck)
    /\ stdin w' = lit "q".
Proof.
  apply (run_loop_goto_raises east_asian_width_excerpt terminal_80_24
           isdigit_excerpt ascii_int 2 (keyboard []) three_slide_deck
           [178] (lit "q")).
  - repeat constructor; discriminate.
  - discriminate.
  - reflexivity.
Defined.
